(** * Content collection and structured summarisation pipeline

    A shallow embedding of [content_collection.py] and
    [custom_summarize_chain.py] (chapter 10, zh_TW edition), and the
    properties of the pipeline that the specification states.

    Python coroutines ([async def]) are embedded as finite resumption
    trees ([coro]): a coroutine either returns, raises, performs a
    synchronous call, or suspends at an [await] on an external awaitable.
    The event loop is an interpreter over an abstract outside world; it
    records every external call in a trace. *)

From stdpp Require Import base option list sets gmap strings pretty.
From Stdlib Require Import ZArith Lia Ascii.

Open Scope Z_scope.

(** ** Exceptions *)

(** Every failure raised by the two modules themselves is a [ValueError]
    told apart by its message; [KeyError] is what a missing DataFrame
    column raises.  Failures of the external services (browser, model,
    output parser) are arbitrary exceptions. *)
Inductive exn : Type :=
| ValueError (msg : string)
| KeyError (key : string)
| ExternalError (what : string).

#[global] Instance exn_eq_dec : EqDecision exn.
Proof. solve_decision. Defined.

(** The error taxonomy of the specification, as the exceptions the code
    raises. *)
Definition ConfigurationError : exn :=
  ValueError "SERPAPI_API_KEY 環境變數未設定".
Definition SearchProviderError (e : string) : exn :=
  ValueError ("SERPAPI 錯誤: " +:+ e).
Definition NoResultsError : exn :=
  ValueError "沒有找到搜尋結果，請檢查 API 金鑰是否有效".
Definition NoValidURLsError : exn :=
  ValueError "找不到有效的 URL！".
Definition NoSummariesCreatedError : exn :=
  ValueError "沒有成功創建任何摘要！請檢查輸入文檔和 API 配置。".

(** ** Data model *)

(** LangChain's [Document]: text plus a metadata dictionary. *)
Record Document : Type := mkDocument {
  page_content : string;
  doc_metadata : gmap string string
}.

(** [Document(page_content=text)]: the metadata defaults to [{}]. *)
Definition Document_of_text (text : string) : Document :=
  mkDocument text ∅.

(** The pydantic model [DocumentSummary]. *)
Record DocumentSummary : Type := mkDocumentSummary {
  concise_summary : string;
  writing_style : string;
  key_points : list string;
  expert_opinions : option (list string);
  metadata : option (gmap string string)
}.

(** [document_summary.metadata = value] *)
Definition set_metadata (s : DocumentSummary) (m : gmap string string)
  : DocumentSummary :=
  mkDocumentSummary (concise_summary s) (writing_style s) (key_points s)
    (expert_opinions s) (Some m).

(** A pandas DataFrame, column by column; the cells of the URL column
    are strings. *)
Abbreviation DataFrame := (gmap string (list string)).

(** [ChatOpenAI(temperature=..., model=...)] *)
Record ChatOpenAI : Type := mkChatOpenAI {
  temperature : Z;
  model : string
}.

(** The interface of [PydanticOutputParser] the summariser uses. *)
Record PydanticOutputParser : Type := mkParser {
  get_format_instructions : string;
  parse : string → exn + DocumentSummary
}.

(** The interface of [RecursiveCharacterTextSplitter] the summariser
    uses. *)
Record TextSplitter : Type := mkSplitter {
  split_documents : list Document → list Document
}.

(** The parameters handed to [GoogleSearch]. *)
Record SearchParams : Type := mkSearchParams {
  q : string;
  location : string;
  api_key : string
}.

(** ** External collaborators *)

(** The libraries the pipeline calls but does not implement: pandas,
    html2text, CPython's [set] and float formatting.  [list_of_set l] is
    [list(set(l))]: the distinct elements of [l] in an order the language
    leaves unspecified. *)
Class Platform : Type := {
  Row : Type;
  Timestamp : Type;
  DataFrame_of_rows : list Row → DataFrame;
  transform_documents : list Document → list Document;
  format_elapsed : Timestamp → Timestamp → string;
  list_of_set : list string → list string;
  list_of_set_NoDup : ∀ l, NoDup (list_of_set l);
  list_of_set_elem : ∀ l x, x ∈ list_of_set l ↔ x ∈ l
}.

(** The dictionary [GoogleSearch.get_dict()] returns, reduced to the two
    keys the pipeline reads; [None] is an absent key. *)
Record SearchResponse `{Platform} : Type := mkSearchResponse {
  error : option string;
  organic_results : option (list Row)
}.
#[global] Arguments mkSearchResponse {_} error organic_results.

(** The two awaitables of the pipeline. *)
Inductive request : Type :=
| Scrape (url : string)
| Invoke (llm : ChatOpenAI) (prompt : string).

(** ** Coroutines *)

Section Coroutines.
Context `{Platform}.

(** An [async def] body.  [Await req k] is [await] on an external
    awaitable: the coroutine is suspended until the reply arrives and
    then goes on as [k reply]; an exception of the awaitable is raised in
    the coroutine, which has no handler. *)
Inductive coro (A : Type) : Type :=
| Ret (a : A)
| Raise (e : exn)
| Getenv (name : string) (k : option string → coro A)
| GetDict (params : SearchParams) (k : SearchResponse → coro A)
| PrintLine (s : string) (k : coro A)
| Clock (k : Timestamp → coro A)
| Await (req : request) (k : string → coro A).

#[global] Arguments Ret {A} a.
#[global] Arguments Raise {A} e.
#[global] Arguments Getenv {A} name k.
#[global] Arguments GetDict {A} params k.
#[global] Arguments PrintLine {A} s k.
#[global] Arguments Clock {A} k.
#[global] Arguments Await {A} req k.

(** [x = await c; k x] for a coroutine [c]: the awaited coroutine runs
    inside the awaiting one. *)
Fixpoint bind {A B : Type} (c : coro A) (f : A → coro B) : coro B :=
  match c with
  | Ret a => f a
  | Raise e => Raise e
  | Getenv name k => Getenv name (λ v, bind (k v) f)
  | GetDict params k => GetDict params (λ r, bind (k r) f)
  | PrintLine s k => PrintLine s (bind k f)
  | Clock k => Clock (λ t, bind (k t) f)
  | Await req k => Await req (λ reply, bind (k reply) f)
  end.

End Coroutines.

Declare Scope coro_scope.
Delimit Scope coro_scope with coro.
Notation "'let_await' x ':=' c 'in' k" := (bind c (λ x, k))
  (at level 10, x name, c at level 100, k at level 200) : coro_scope.
Open Scope coro_scope.

(** ** content_collection.py *)

(** The class [ChromiumLoader]; [urls] stands for [self.urls]. *)
Module ChromiumLoader.
Section Loader.
Context `{Platform}.

(** [[await self.ascrape_playwright(url) for url in self.urls]]: the
    comprehension awaits each scrape before it evaluates the next
    element. *)
Fixpoint scrape_each (urls : list string) : coro (list string) :=
  match urls with
  | [] => Ret []
  | url :: rest =>
      Await (Scrape url) (λ text,
        let_await texts := scrape_each rest in
        Ret (text :: texts))
  end.

Definition load (urls : list string) : coro (list Document) :=
  let_await raw_text := scrape_each urls in
  Ret (Document_of_text <$> raw_text).

End Loader.
End ChromiumLoader.

Section ContentCollection.
Context `{Platform}.

(** [values[:n]] on a sequence: a negative bound counts from the end. *)
Definition slice_to {A : Type} (n : Z) (l : list A) : list A :=
  if decide (0 ≤ n) then take (Z.to_nat n) l
  else take (Z.to_nat (Z.of_nat (length l) + n)) l.

(** What [.tolist()] may hand back in general: a list, or a lone scalar
    for a zero-dimensional array. *)
Inductive tolist_result : Type :=
| AsList (l : list string)
| AsStr (s : string).

(** A column slice is one-dimensional, so [.tolist()] gives a list. *)
Definition tolist (cells : list string) : tolist_result := AsList cells.

(** [if isinstance(urls, str): urls = [urls]] *)
Definition coerce_to_list (urls : tolist_result) : list string :=
  match urls with
  | AsStr s => [s]
  | AsList l => l
  end.

(** Lines 63-77 of [get_html_content_from_urls]: the URLs handed to the
    loader, or the exception raised before any page is fetched. *)
Definition select_urls (df : DataFrame) (number_of_urls : Z)
    (url_column : string) : exn + list string :=
  match df !! url_column with
  | None => inl (KeyError url_column)
  | Some column =>
      let urls := tolist (slice_to number_of_urls column) in
      let urls := coerce_to_list urls in
      let urls := filter (λ url, url ≠ "") urls in
      let urls := list_of_set urls in
      if decide (length urls = 0%nat) then inl NoValidURLsError
      else inr urls
  end.

Definition get_html_content_from_urls (df : DataFrame)
    (number_of_urls : Z) (url_column : string) : coro (list Document) :=
  match select_urls df number_of_urls url_column with
  | inl e => Raise e
  | inr urls =>
      let_await docs := ChromiumLoader.load urls in
      Ret docs
  end.

Definition extract_text_from_webpages (documents : list Document)
  : list Document :=
  transform_documents documents.

(** Python truthiness of [os.getenv(...)]: [None] and the empty string
    are false. *)
Definition truthy (v : option string) : bool :=
  match v with
  | None => false
  | Some s => negb (String.eqb s "")
  end.

Definition collect_serp_data_and_extract_text_from_webpages
    (topic : string) : coro (list Document) :=
  Getenv "SERPAPI_API_KEY" (λ key,
    if negb (truthy key) then Raise ConfigurationError
    else
      let search :=
        mkSearchParams topic "Austin,Texas" (default "" key) in
      GetDict search (λ result,
        match error result with
        | Some e => Raise (SearchProviderError e)
        | None =>
            match organic_results result with
            | None | Some [] => Raise NoResultsError
            | Some rows =>
                let serp_results := DataFrame_of_rows rows in
                let_await html_documents :=
                  get_html_content_from_urls serp_results 3 "link" in
                let text_documents :=
                  extract_text_from_webpages html_documents in
                Ret text_documents
            end
        end)).

End ContentCollection.

(** ** custom_summarize_chain.py *)

Section SummarizeChain.
Context `{Platform}.

Definition nl : string := String "010"%char "".
Definition indent : string := "    ".

(** The f-string template of the summariser with [{text}] and
    [{format_instructions}] filled in. *)
Definition prompt_template (text format_instructions : string) : string :=
  nl +:+ indent +:+ "所有內容必須以繁體中文輸出。"
  +:+ nl +:+ indent
  +:+ "作為內容 SEO 研究員，你需要總結並提取以下文本的關鍵點。"
  +:+ nl +:+ indent
  +:+ "獲得的見解將用於內容研究，我們將比較多篇文章的關鍵點、見解和摘要。"
  +:+ nl +:+ indent +:+ "---"
  +:+ nl +:+ indent
  +:+ "- 你必須分析文本並從以下文本中提取關鍵點和觀點"
  +:+ nl +:+ indent
  +:+ "- 你必須從以下文本中提取關鍵點和觀點："
  +:+ nl +:+ indent +:+ text
  +:+ nl +:+ indent +:+ format_instructions
  +:+ nl +:+ indent.

(** [StuffDocumentsChain] puts the page contents of its input documents,
    joined by a blank line, in the template variable [text]. *)
Definition stuff_documents (docs : list Document) : string :=
  String.concat (nl +:+ nl) (page_content <$> docs).

(** [stuff_chain.ainvoke({"input_documents": docs,
    "format_instructions": fi})] with the chain built on [llm]: the
    request sent to the model. *)
Definition ainvoke (llm : ChatOpenAI) (input_documents : list Document)
    (format_instructions : string) : request :=
  Invoke llm (prompt_template (stuff_documents input_documents)
                format_instructions).

Definition create_summary_from_text (document : Document)
    (parser : PydanticOutputParser) (llm : ChatOpenAI)
    (text_splitter : TextSplitter) : coro (option DocumentSummary) :=
  let split_docs := split_documents text_splitter [document] in
  match split_docs with
  | [] => Ret None
  | first_document :: _ =>
      let llm := mkChatOpenAI 0 "gpt-5" in
      PrintLine "開始生成文檔摘要..." (
      Clock (λ start_time,
      Await (ainvoke llm [first_document] (get_format_instructions parser))
        (λ output_text,
      Clock (λ now,
      PrintLine ("處理時間: " +:+ format_elapsed start_time now +:+ " 秒") (
      PrintLine ("文檔摘要生成完成！" +:+ nl +:+ "---") (
      match parse parser output_text with
      | inl e => Raise e
      | inr document_summary =>
          let document_summary :=
            set_metadata document_summary (doc_metadata document) in
          Ret (Some document_summary)
      end))))))
  end.

End SummarizeChain.

(** ** The outside world and the event loop *)

(** What the process, the search provider, the clock, the browser and
    the model answer, as functions of an abstract world state.
    [next_ready w n] is the event loop's choice, among [n] suspended
    tasks, of the one whose awaitable completes next. *)
Class Outside `{Platform} : Type := {
  World : Type;
  os_getenv : string → World → option string;
  get_dict : SearchParams → World → SearchResponse * World;
  time_time : World → Timestamp * World;
  respond : request → World → (exn + string) * World;
  next_ready : World → nat → nat
}.

(** The externally visible steps of a run, oldest first. *)
Inductive event : Type :=
| EvGetenv (name : string)
| EvSearch (params : SearchParams)
| EvPrint (line : string)
| EvStart (req : request)
| EvEnd (req : request) (reply : exn + string).

Inductive outcome (A : Type) : Type :=
| Returned (a : A)
| Raised (e : exn).
#[global] Arguments Returned {A} a.
#[global] Arguments Raised {A} e.

(** A task of the event loop: done, or suspended at an [await]. *)
Inductive task `{Platform} (A : Type) : Type :=
| Finished (a : A)
| Failed (e : exn)
| Pending (req : request) (k : string → coro A).
#[global] Arguments Finished {_ A} a.
#[global] Arguments Failed {_ A} e.
#[global] Arguments Pending {_ A} req k.

Section EventLoop.
Context `{Outside}.

(** What a piece of execution yields: a value, the world it leaves, and
    the events it performed. *)
#[projections(primitive)]
Record run (R : Type) : Type := mkRun {
  result : R;
  after : World;
  events : list event
}.
#[global] Arguments mkRun {R} result after events.
#[global] Arguments result {R} r.
#[global] Arguments after {R} r.
#[global] Arguments events {R} r.

Definition emit {R : Type} (evs : list event) (r : run R) : run R :=
  mkRun (result r) (after r) (evs ++ events r).

(** [await c] from the top level: the coroutine runs to completion, and
    each awaitable it waits for is launched when the coroutine reaches it
    and has completed before the coroutine goes on. *)
Fixpoint exec {A : Type} (c : coro A) (w : World) : run (outcome A) :=
  match c with
  | Ret a => mkRun (Returned a) w []
  | Raise e => mkRun (Raised e) w []
  | Getenv name k => emit [EvGetenv name] (exec (k (os_getenv name w)) w)
  | GetDict params k =>
      let '(r, w') := get_dict params w in
      emit [EvSearch params] (exec (k r) w')
  | PrintLine s k => emit [EvPrint s] (exec k w)
  | Clock k => let '(t, w') := time_time w in exec (k t) w'
  | Await req k =>
      let '(reply, w') := respond req w in
      emit [EvStart req; EvEnd req reply]
        match reply with
        | inl e => mkRun (Raised e) w' []
        | inr v => exec (k v) w'
        end
  end.

(** A task runs until it finishes or reaches its next [await], which
    launches the awaitable and suspends the task. *)
Fixpoint advance {A : Type} (c : coro A) (w : World) : run (task A) :=
  match c with
  | Ret a => mkRun (Finished a) w []
  | Raise e => mkRun (Failed e) w []
  | Getenv name k =>
      emit [EvGetenv name] (advance (k (os_getenv name w)) w)
  | GetDict params k =>
      let '(r, w') := get_dict params w in
      emit [EvSearch params] (advance (k r) w')
  | PrintLine s k => emit [EvPrint s] (advance k w)
  | Clock k => let '(t, w') := time_time w in advance (k t) w'
  | Await req k => mkRun (Pending req k) w [EvStart req]
  end.

(** The awaitable of a suspended task completes and the task is
    resumed. *)
Definition complete {A : Type} (req : request) (k : string → coro A)
    (w : World) : run (task A) :=
  let '(reply, w') := respond req w in
  emit [EvEnd req reply]
    match reply with
    | inl e => mkRun (Failed e) w' []
    | inr v => advance (k v) w'
    end.

Definition is_pending {A : Type} (t : task A) : bool :=
  match t with Pending _ _ => true | _ => false end.

Definition failure {A : Type} (t : task A) : option exn :=
  match t with Failed e => Some e | _ => None end.

Definition value {A : Type} (t : task A) : option A :=
  match t with Finished a => Some a | _ => None end.

(** The number of suspended tasks. *)
Definition pending {A : Type} (ts : list (task A)) : nat :=
  length (filter (λ t, is_pending t = true) ts).
#[global] Arguments pending : simpl never.

(** [asyncio.gather] wraps every coroutine in a task; the tasks take
    their first steps in argument order. *)
Fixpoint start_all {A : Type} (cs : list (coro A)) (w : World)
  : run (list (task A)) :=
  match cs with
  | [] => mkRun [] w []
  | c :: cs' =>
      let r := advance c w in
      let rs := start_all cs' (after r) in
      mkRun (result r :: result rs) (after rs) (events r ++ events rs)
  end.

(** Complete and resume the [n]-th suspended task. *)
Fixpoint resume_nth {A : Type} (n : nat) (ts : list (task A)) (w : World)
  : run (list (task A)) :=
  match ts with
  | [] => mkRun [] w []
  | Pending req k :: ts' =>
      match n with
      | O =>
          let r := complete req k w in
          mkRun (result r :: ts') (after r) (events r)
      | S n' =>
          let rs := resume_nth n' ts' w in
          mkRun (Pending req k :: result rs) (after rs) (events rs)
      end
  | t :: ts' =>
      let rs := resume_nth n ts' w in
      mkRun (t :: result rs) (after rs) (events rs)
  end.

(** The loop behind [await asyncio.gather] over the tasks: the first
    exception of a task is raised in the caller at once; otherwise
    awaitables complete one at a time, in the order the loop chooses,
    until every task has returned, and the values come back in argument
    order.  [fuel] bounds the number of completions; [None] is a loop
    that was cut short. *)
Fixpoint event_loop {A : Type} (fuel : nat) (ts : list (task A))
    (w : World) : run (option (outcome (list A))) :=
  match head (omap failure ts) with
  | Some e => mkRun (Some (Raised e)) w []
  | None =>
      let n := pending ts in
      if decide (n = 0%nat)
      then mkRun (Some (Returned (omap value ts))) w []
      else
        match fuel with
        | O => mkRun None w []
        | S fuel' =>
            let r := resume_nth (next_ready w n `mod` n) ts w in
            emit (events r) (event_loop fuel' (result r) (after r))
        end
  end.

Definition gather {A : Type} (fuel : nat) (cs : list (coro A))
    (w : World) : run (option (outcome (list A))) :=
  let r := start_all cs w in
  emit (events r) (event_loop fuel (result r) (after r)).

(** [create_all_summaries], run by the event loop. *)
Definition create_all_summaries (fuel : nat)
    (text_documents : list Document) (parser : PydanticOutputParser)
    (llm : ChatOpenAI) (text_splitter : TextSplitter) (w : World)
  : run (option (outcome (list DocumentSummary))) :=
  let tasks :=
    (λ document,
       create_summary_from_text document parser llm text_splitter)
      <$> text_documents in
  emit [EvPrint ("開始並行處理 " +:+ pretty (length tasks)
                 +:+ " 個文檔的摘要生成...")]
    (let r := gather fuel tasks w in
     match result r with
     | None => mkRun None (after r) (events r)
     | Some (Raised e) => mkRun (Some (Raised e)) (after r) (events r)
     | Some (Returned results) =>
         let summaries := omap id results in
         if decide (length summaries = 0%nat)
         then mkRun (Some (Raised NoSummariesCreatedError)) (after r)
                (events r)
         else mkRun (Some (Returned summaries)) (after r)
                (events r ++
                 [EvPrint ("成功創建了 " +:+ pretty (length summaries)
                           +:+ " 個文檔摘要")])
     end).

(** The largest number of awaitables in flight at once in a trace that
    starts with [cur] of them in flight. *)
Fixpoint peak_in_flight (cur : nat) (evs : list event) : nat :=
  match evs with
  | [] => cur
  | EvStart _ :: evs' => peak_in_flight (S cur) evs'
  | EvEnd _ _ :: evs' => Nat.max cur (peak_in_flight (Nat.pred cur) evs')
  | _ :: evs' => peak_in_flight cur evs'
  end.

(** The completed page fetches of a trace: URL and reply, oldest
    first. *)
Definition scrapes (evs : list event)
  : list (string * (exn + string)) :=
  omap (λ ev, match ev with
              | EvEnd (Scrape url) reply => Some (url, reply)
              | _ => None
              end) evs.

(** The trace of page fetches made one after the other: each fetch is
    launched and has completed before the next is launched. *)
Definition fetch_events (fetched : list (string * (exn + string)))
  : list event :=
  '(url, reply) ← fetched;
  [EvStart (Scrape url); EvEnd (Scrape url) reply].

(** The model invocations launched in a trace. *)
Definition invocations (evs : list event) : list (ChatOpenAI * string) :=
  omap (λ ev, match ev with
              | EvStart (Invoke llm prompt) => Some (llm, prompt)
              | _ => None
              end) evs.

End EventLoop.

(** ** Invariants of the event loop *)

Section TaskInvariant.
Context `{Outside} {A D : Type}.

(** A task started for the input [d] keeps to [J]: [J d a] holds of the
    value [a] it returns, and once suspended it finishes, one way or the
    other, when its awaitable completes. *)
Definition task_ok (J : D → A → Prop) (d : D) (t : task A) : Prop :=
  match t with
  | Finished a => J d a
  | Failed _ => True
  | Pending req k =>
      ∀ w, match result (complete req k w) with
           | Finished a => J d a
           | Failed _ => True
           | Pending _ _ => False
           end
  end.

End TaskInvariant.

(** The number of null results in what [gather] returned. *)
Definition nulls {A : Type} (results : list (option A)) : nat :=
  length (filter (λ x, x = None) results).

(** What a Summarizer result says about its document: it is null
    exactly when the splitter yields no chunk, and a summary carries the
    metadata of the document. *)
Definition summary_of (text_splitter : TextSplitter) (document : Document)
    (x : option DocumentSummary) : Prop :=
  (x = None ↔ split_documents text_splitter [document] = [])
  ∧ ∀ summary, x = Some summary →
      metadata summary = Some (doc_metadata document).

(** The documents for which the Summarizer reaches the model. *)
Definition with_chunks (text_splitter : TextSplitter)
    (text_documents : list Document) : list Document :=
  filter (λ d, split_documents text_splitter [d] ≠ []) text_documents.

(** ** Readings of a trace *)

(** The searches made in a trace. *)
Definition searches (evs : list event) : list SearchParams :=
  omap (λ ev, match ev with
              | EvSearch params => Some params
              | _ => None
              end) evs.

(** The outcomes of the model invocations that completed in a trace. *)
Definition replies (evs : list event) : list (exn + string) :=
  omap (λ ev, match ev with
              | EvEnd (Invoke _ _) reply => Some reply
              | _ => None
              end) evs.

(** The lines printed in a trace. *)
Definition printed (evs : list event) : list string :=
  omap (λ ev, match ev with
              | EvPrint line => Some line
              | _ => None
              end) evs.

(** The model invocation the Summarizer makes for a document that has
    chunks: the fixed model, and the template filled with the first
    chunk. *)
Definition invocation_for (parser : PydanticOutputParser)
    (text_splitter : TextSplitter) (document : Document)
  : ChatOpenAI * string :=
  (mkChatOpenAI 0 "gpt-5",
   prompt_template
     (default "" (page_content <$> head (split_documents text_splitter
                                           [document])))
     (get_format_instructions parser)).


Section LoudTasks.
Context `{Outside} {A : Type}.


End LoudTasks.

Section HealthyTasks.
Context `{Outside} {A : Type}.

(** A task that has not failed and that, once its awaitable completes,
    finishes with a value. *)
Definition settles_well (t : task A) : Prop :=
  match t with
  | Finished _ => True
  | Failed _ => False
  | Pending req k =>
      ∀ w, match result (complete req k w) with
           | Finished _ => True
           | _ => False
           end
  end.

End HealthyTasks.

(** ** A concrete platform and world

    One executable instance of the external collaborators, on which the
    definitions above can be evaluated. *)

Module Demo.

(** A search hit is reduced to its link; the DataFrame built from the
    hits has the single column [link]. *)
#[export] Instance platform : Platform := {|
  Row := string;
  Timestamp := Z;
  DataFrame_of_rows := λ rows, {[ "link" := rows ]};
  transform_documents := λ docs, docs;
  format_elapsed := λ t0 t1, pretty (t1 - t0);
  list_of_set := remove_dups;
  list_of_set_NoDup := NoDup_remove_dups;
  list_of_set_elem := λ l x, elem_of_remove_dups l x
|}.

(** The world: a clock, the configured key, the answer the search
    provider will give, and the pages the browser cannot open. *)
Record world : Type := mkWorld {
  clock : Z;
  key : option string;
  answer : SearchResponse;
  broken : list string
}.

Definition tick (w : world) : world :=
  mkWorld (clock w + 1) (key w) (answer w) (broken w).

#[export] Instance outside : Outside := {|
  World := world;
  os_getenv := λ name w,
    if decide (name = "SERPAPI_API_KEY") then key w else None;
  get_dict := λ _ w, (answer w, tick w);
  time_time := λ w, (clock w, tick w);
  respond := λ req w,
    match req with
    | Scrape url =>
        if decide (url ∈ broken w)
        then (inl (ExternalError ("cannot open " +:+ url)), tick w)
        else (inr ("<html>" +:+ url +:+ "</html>"), tick w)
    | Invoke _ prompt => (inr "reply", tick w)
    end;
  next_ready := λ _ _, 0%nat
|}.

Definition hits (links : list string) : SearchResponse :=
  mkSearchResponse None (Some links).

Definition world0 : World :=
  mkWorld 0 (Some "secret") (hits ["http://a"; "http://b"]) [].

(** A parser that accepts every reply and fills [metadata] from the
    reply; a splitter that yields nothing for an empty document and two
    chunks for any other. *)
Definition parser : PydanticOutputParser :=
  mkParser "Reply in JSON."
    (λ reply, inr (mkDocumentSummary reply "plain" [reply] None
                     (Some {[ "source" := "model" ]}))).

Definition splitter : TextSplitter :=
  mkSplitter (λ docs,
    d ← docs;
    if decide (page_content d = "") then []
    else [mkDocument (String.substring 0 4 (page_content d))
            (doc_metadata d);
          mkDocument (String.substring 4 (String.length (page_content d))
                        (page_content d)) (doc_metadata d)]).

(** The provider rejects the key: its answer has [error] and no
    [organic_results]. *)
Definition world_rejected : World :=
  mkWorld 0 (Some "secret")
    (mkSearchResponse (Some "Invalid API key.") None) [].

(** No API key is configured. *)
Definition world_unconfigured : World :=
  mkWorld 0 None (hits ["http://a"; "http://b"]) [].

(** The browser cannot open the second page. *)
Definition world_offline : World :=
  mkWorld 0 (Some "secret") (hits ["http://a"; "http://b"]) ["http://b"].

(** The DataFrame of the specification's example. *)
Definition example_rows : DataFrame :=
  {[ "link" := [""; "http://a"; "http://a"; "http://b"] ]}.

(** Three rows with distinct URLs. *)
Definition three_rows : DataFrame :=
  {[ "link" := ["http://a"; "http://b"; "http://c"] ]}.

Definition article : Document :=
  mkDocument "Rocq is a proof assistant." {[ "source" := "http://a" ]}.

Definition blank : Document := mkDocument "" ∅.

End Demo.

(** ** Worlds with failures

    A parser that rejects every reply, and a model that raises on one
    particular prompt, over the platform and the worlds of [Demo]. *)

Module Faults.
Import Demo.

Definition strict_parser : PydanticOutputParser :=
  mkParser "Reply in JSON."
    (λ reply, inl (ExternalError "OutputParserException")).

(** The model is rate-limited on the prompt made from the chunk "Oops",
    and replies to any other. *)
Definition outside : Outside := {|
  World := world;
  os_getenv := λ name w,
    if decide (name = "SERPAPI_API_KEY") then key w else None;
  get_dict := λ _ w, (answer w, tick w);
  time_time := λ w, (clock w, tick w);
  respond := λ req w,
    match req with
    | Scrape url => (inr ("<html>" +:+ url +:+ "</html>"), tick w)
    | Invoke _ prompt =>
        if decide (prompt = prompt_template "Oops" "Reply in JSON.")
        then (inl (ExternalError "rate limit"), tick w)
        else (inr "reply", tick w)
    end;
  next_ready := λ _ _, 0%nat
|}.

Definition start : @World platform outside :=
  mkWorld 0 (Some "secret") (hits ["http://a"; "http://b"]) [].

Definition oops : Document :=
  mkDocument "Oops, try again later." {[ "source" := "http://b" ]}.

End Faults.

(** * Properties *)

(** Case analysis on the next answer of the outside world, or of the
    parser, in the goal. *)
Ltac ask_world :=
  match goal with
  | |- context [time_time ?w] => destruct (time_time w) as [? ?]
  | |- context [respond ?req ?w] => destruct (respond req w) as [[?|?] ?]
  | |- context [parse ?p ?reply] => destruct (parse p reply) as [?|?]
  end; cbn.

(** ** URL Selector *)

Section UrlSelector.
Context `{Platform}.

Lemma slice_to_length {A : Type} (n : Z) (l : list A) :
  0 ≤ n → Z.of_nat (length (slice_to n l)) ≤ n.
Proof.
  intros Hn. unfold slice_to. rewrite decide_True by done.
  rewrite length_take. lia.
Qed.

(** The selection, once the column exists. *)
Lemma slice_to_length_negative {A : Type} (n : Z) (l : list A) :
  n < 0 →
  Z.of_nat (length (slice_to n l)) = Z.max 0 (Z.of_nat (length l) + n).
Proof.
  intros Hn. unfold slice_to. rewrite decide_False by lia.
  rewrite length_take. lia.
Qed.

Lemma select_urls_lookup (df : DataFrame) (n : Z) (col : string)
    (column : list string) :
  df !! col = Some column →
  select_urls df n col =
    let urls := list_of_set (filter (λ url, url ≠ "") (slice_to n column)) in
    if decide (length urls = 0%nat) then inl NoValidURLsError else inr urls.
Proof. intros Hcol. unfold select_urls. by rewrite Hcol. Qed.

(** A successful selection is the distinct non-empty cells among the
    sliced rows. *)
Lemma select_urls_inr (df : DataFrame) (n : Z) (col : string)
    (urls : list string) :
  select_urls df n col = inr urls →
  ∃ column, df !! col = Some column
    ∧ urls = list_of_set (filter (λ url, url ≠ "") (slice_to n column))
    ∧ urls ≠ [].
Proof.
  unfold select_urls. destruct (df !! col) as [column|]; [|done].
  cbn. case_decide as Hlen; [done|].
  intros [= <-]. exists column. split_and!; [done..|].
  intros Hnil. by rewrite Hnil in Hlen.
Qed.

Lemma list_of_set_nil (l : list string) : list_of_set l = [] ↔ l = [].
Proof.
  split.
  - intros Hnil. destruct l as [|x l]; [done|].
    assert (x ∈ list_of_set (x :: l)) as Hx
      by (apply list_of_set_elem; left).
    rewrite Hnil in Hx. by apply elem_of_nil in Hx.
  - intros ->. destruct (list_of_set []) as [|x l] eqn:Heq; [done|].
    assert (x ∈ @nil string) as Hx
      by (apply list_of_set_elem; rewrite Heq; left).
    by apply elem_of_nil in Hx.
Qed.

Lemma list_of_set_length (l : list string) :
  (length (list_of_set l) ≤ length l)%nat.
Proof.
  apply submseteq_length, NoDup_submseteq; [apply list_of_set_NoDup|].
  intros x. apply list_of_set_elem.
Qed.

Lemma list_to_set_empty_nil (l : list string) :
  (list_to_set l : gset string) = ∅ → l = [].
Proof.
  destruct l as [|x l]; [done|]. intros Hempty.
  assert (x ∈ (list_to_set (x :: l) : gset string)) as Hx
    by (apply elem_of_list_to_set; left).
  rewrite Hempty in Hx. by apply not_elem_of_empty in Hx.
Qed.

(** A duplicate-free list whose only possible element is [x] is [[x]],
    if it is not empty. *)
Lemma NoDup_only {A : Type} (x : A) (l : list A) :
  NoDup l → l ≠ [] → (∀ y, y ∈ l → y = x) → l = [x].
Proof.
  intros Hnd Hne Hall. destruct l as [|a [|b l]]; [done| |].
  - f_equal. apply Hall. left.
  - exfalso. apply NoDup_cons in Hnd as [Hnotin _]. apply Hnotin.
    rewrite (Hall a), (Hall b); [left| right; left | left].
Qed.

(** The column of the specification's example. *)
Lemma select_urls_first_three (df : DataFrame) (col : string) :
  df !! col = Some [""; "http://a"; "http://a"; "http://b"] →
  select_urls df 3 col = inr ["http://a"].
Proof.
  intros Hcol. rewrite (select_urls_lookup _ _ _ _ Hcol). cbv zeta.
  set (kept := ["http://a"; "http://a"]).
  change (filter _ (slice_to 3 _)) with kept.
  assert (list_of_set kept = ["http://a"]) as ->; [|done].
  apply NoDup_only; [apply list_of_set_NoDup| |].
  - rewrite list_of_set_nil. by subst kept.
  - intros y Hy. rewrite list_of_set_elem in Hy. subst kept.
    rewrite !elem_of_cons, elem_of_nil in Hy. tauto.
Qed.

Lemma select_urls_all_four (df : DataFrame) (col : string) :
  df !! col = Some [""; "http://a"; "http://a"; "http://b"] →
  ∃ urls, select_urls df 4 col = inr urls
    ∧ (list_to_set urls : gset string) = {[ "http://a"; "http://b" ]}.
Proof.
  intros Hcol. rewrite (select_urls_lookup _ _ _ _ Hcol). cbv zeta.
  set (kept := ["http://a"; "http://a"; "http://b"]).
  change (filter _ (slice_to 4 _)) with kept.
  case_decide as Hlen.
  - apply length_zero_iff_nil in Hlen. rewrite list_of_set_nil in Hlen.
    by subst kept.
  - eexists; split; [done|].
    apply set_eq. intros x. rewrite elem_of_list_to_set, list_of_set_elem.
    subst kept.
    rewrite !elem_of_cons, elem_of_nil, elem_of_union, !elem_of_singleton.
    tauto.
Qed.

(** C1, as the code has it.  With URL column
    ["", "http://a", "http://a", "http://b"] and N = 3 the URL Selector
    returns exactly ["http://a"]: the cap is applied to the rows before
    empties and duplicates are dropped, so the fourth row is never seen.
    The set {"http://a", "http://b"} is what N = 4 selects. *)
Theorem url_selector_example (df : DataFrame) (col : string) :
  df !! col = Some [""; "http://a"; "http://a"; "http://b"] →
  select_urls df 3 col = inr ["http://a"]
  ∧ ∃ urls, select_urls df 4 col = inr urls
      ∧ (list_to_set urls : gset string) = {[ "http://a"; "http://b" ]}.
Proof.
  intros Hcol. split.
  - by apply select_urls_first_three.
  - by apply select_urls_all_four.
Qed.

(** C6, as the code has it.  When the URL Selector does not fail, the
    URLs it hands to the loader are pairwise distinct, none is the empty
    string and there is at least one of them.  Their number is at most
    the cap N when N >= 0; a negative N is accepted as well, and then
    [values[:N]] drops the last -N rows, so the number is at most the
    number of rows minus -N, which is not below N.  When nothing is left
    after filtering and deduplication, the selector fails with
    NoValidURLsError. *)
Theorem url_selector_invariant (df : DataFrame) (n : Z) (col : string) :
  (∀ urls, select_urls df n col = inr urls →
     get_html_content_from_urls df n col
       = bind (ChromiumLoader.load urls) (λ docs, Ret docs)
     ∧ NoDup urls ∧ ("" ∉ urls) ∧ (1 ≤ length urls)%nat
     ∧ (0 ≤ n → Z.of_nat (length urls) ≤ n)
     ∧ (n < 0 →
        ∃ column, df !! col = Some column
          ∧ n < Z.of_nat (length urls) ≤ Z.of_nat (length column) + n))
  ∧ (∀ column, df !! col = Some column →
       (list_to_set (filter (λ url, url ≠ "") (slice_to n column))
          : gset string) = ∅ →
       select_urls df n col = inl NoValidURLsError
       ∧ get_html_content_from_urls df n col = Raise NoValidURLsError).
Proof.
  split.
  - intros urls Hsel. split.
    { unfold get_html_content_from_urls. by rewrite Hsel. }
    apply select_urls_inr in Hsel as (column & Hcol & -> & Hne).
    pose proof (list_of_set_length
                  (filter (λ url, url ≠ "") (slice_to n column))) as Hset.
    pose proof (length_filter (λ url : string, url ≠ "")
                  (slice_to n column)) as Hfilter.
    split_and!.
    + apply list_of_set_NoDup.
    + intros Hin. rewrite list_of_set_elem, list_elem_of_filter in Hin.
      by destruct Hin.
    + destruct (list_of_set _); [done|cbn; lia].
    + intros Hn. pose proof (slice_to_length n column Hn). lia.
    + intros Hn. exists column. split; [done|].
      pose proof (slice_to_length_negative n column Hn).
      destruct (list_of_set _); [done|cbn in *; lia].
  - intros column Hcol Hempty.
    assert (select_urls df n col = inl NoValidURLsError) as Hsel.
    { rewrite (select_urls_lookup _ _ _ _ Hcol). cbn.
      apply list_to_set_empty_nil in Hempty.
      rewrite Hempty, (proj2 (list_of_set_nil [])) by done. done. }
    split; [done|]. unfold get_html_content_from_urls. by rewrite Hsel.
Qed.

End UrlSelector.

(** ** Page Fetcher *)

Section PageFetcher.
Context `{Outside}.

(** Awaiting a coroutine and going on with its value. *)
Lemma exec_bind {A B : Type} (c : coro A) (f : A → coro B) (w : World) :
  exec (bind c f) w =
    match result (exec c w) with
    | Returned a => emit (events (exec c w)) (exec (f a) (after (exec c w)))
    | Raised e => mkRun (Raised e) (after (exec c w)) (events (exec c w))
    end.
Proof.
  revert w. induction c as [a|e|name k IH|params k IH|s k IH|k IH|req k IH];
    intros w; cbn.
  - done.
  - done.
  - rewrite IH. unfold emit; cbn.
    by destruct (result (exec (k (os_getenv name w)) w)).
  - destruct (get_dict params w) as [r w']. rewrite IH. unfold emit; cbn.
    by destruct (result (exec (k r) w')).
  - rewrite IH. unfold emit; cbn. by destruct (result (exec k w)).
  - destruct (time_time w) as [t w']. apply IH.
  - destruct (respond req w) as [[e|v] w']; [done|].
    rewrite IH. unfold emit; cbn. by destruct (result (exec (k v) w')).
Qed.

Lemma scrapes_fetch_events (fetched : list (string * (exn + string))) :
  scrapes (fetch_events fetched) = fetched.
Proof.
  induction fetched as [|[url reply] fetched IH]; [done|].
  cbn. f_equal. apply IH.
Qed.

Lemma peak_fetch_events (fetched : list (string * (exn + string))) :
  peak_in_flight 0 (fetch_events fetched)
    = match fetched with [] => 0%nat | _ => 1%nat end.
Proof.
  induction fetched as [|[url reply] fetched IH]; [done|].
  change (peak_in_flight 0 (fetch_events ((url, reply) :: fetched)))
    with (Nat.max 1 (peak_in_flight 0 (fetch_events fetched))).
  rewrite IH. by destruct fetched.
Qed.

(** The comprehension of [load], fetch by fetch: the fetches made are
    those of a prefix of the URLs, in order; all of them succeeded but
    possibly the last, whose exception ends the run. *)
Lemma scrape_each_run (urls : list string) (w : World) :
  ∃ fetched,
    events (exec (ChromiumLoader.scrape_each urls) w) = fetch_events fetched
    ∧ match result (exec (ChromiumLoader.scrape_each urls) w) with
      | Returned texts =>
          fetched = zip urls (inr <$> texts) ∧ length texts = length urls
      | Raised e =>
          ∃ texts url,
            fetched = zip urls (inr <$> texts) ++ [(url, inl e)]
            ∧ urls !! length texts = Some url
      end.
Proof.
  revert w. induction urls as [|url urls IH]; intros w.
  { exists []. by cbn. }
  cbn. destruct (respond (Scrape url) w) as [[e|text] w'] eqn:Hreply.
  { exists [(url, inl e)]. cbn. split; [done|]. by exists [], url. }
  destruct (IH w') as (fetched & Hev & Hres).
  exists ((url, inr text) :: fetched).
  rewrite exec_bind. unfold emit.
  destruct (result (exec (ChromiumLoader.scrape_each urls) w'))
    as [texts|e]; cbn.
  - rewrite Hev, app_nil_r. split; [done|].
    destruct Hres as [-> Hlen]. by rewrite Hlen.
  - rewrite Hev. split; [done|].
    destruct Hres as (texts & url' & -> & Hlook).
    by exists (text :: texts), url'.
Qed.

(** The same for [load], with the documents it builds. *)
Lemma load_run (urls : list string) (w : World) :
  ∃ fetched,
    events (exec (ChromiumLoader.load urls) w) = fetch_events fetched
    ∧ match result (exec (ChromiumLoader.load urls) w) with
      | Returned docs =>
          fetched = zip urls (inr ∘ page_content <$> docs)
          ∧ length docs = length urls
      | Raised e =>
          ∃ texts url,
            fetched = zip urls (inr <$> texts) ++ [(url, inl e)]
            ∧ urls !! length texts = Some url
      end.
Proof.
  destruct (scrape_each_run urls w) as (fetched & Hev & Hres).
  exists fetched. unfold ChromiumLoader.load. rewrite exec_bind.
  destruct (result (exec (ChromiumLoader.scrape_each urls) w))
    as [texts|e]; cbn.
  - rewrite app_nil_r. split; [done|]. destruct Hres as [-> Hlen].
    rewrite length_fmap. split; [|done].
    f_equal. rewrite <- list_fmap_compose. by apply list_fmap_ext.
  - done.
Qed.

(** The URLs of the fetches made, when only the first [n] replies were
    awaited. *)
Lemma fst_zip_take {A B : Type} (l : list A) (k : list B) :
  (zip l k).*1 = take (length k) l.
Proof.
  revert k. induction l as [|a l IH]; intros [|b k]; cbn; [done..|].
  f_equal. apply IH.
Qed.

(** C5.  [ChromiumLoader.load] over K URLs: when every fetch made
    succeeds it returns exactly K documents, the i-th holding the page
    fetched for the i-th URL; when a fetch raises, the call raises that
    exception, and a raised call carries no documents.  Conversely a
    raised call is always due to a fetch of one of the URLs. *)
Theorem page_fetcher_all_or_nothing (urls : list string) (w : World) :
  let r := exec (ChromiumLoader.load urls) w in
  ((∀ url reply, (url, reply) ∈ scrapes (events r) →
      ∃ html, reply = inr html) →
   ∃ docs, result r = Returned docs ∧ length docs = length urls
     ∧ scrapes (events r) = zip urls (inr ∘ page_content <$> docs))
  ∧ (∀ url e, (url, inl e) ∈ scrapes (events r) → result r = Raised e)
  ∧ (∀ e, result r = Raised e →
       ∃ url, url ∈ urls ∧ (url, inl e) ∈ scrapes (events r)).
Proof.
  cbv zeta. destruct (load_run urls w) as (fetched & -> & Hres).
  rewrite scrapes_fetch_events.
  destruct (result (exec (ChromiumLoader.load urls) w)) as [docs|e'].
  - destruct Hres as [-> Hlen]. split_and!.
    + intros _. by exists docs.
    + intros url e Hin. apply elem_of_zip_r in Hin.
      apply list_elem_of_fmap in Hin as (d & [=] & _).
    + intros e [=].
  - destruct Hres as (texts & url' & -> & Hlook). split_and!.
    + intros Hall. destruct (Hall url' (inl e')) as [html [=]].
      apply elem_of_app. right. by apply list_elem_of_singleton.
    + intros url e Hin. apply elem_of_app in Hin as [Hin|Hin].
      * apply elem_of_zip_r in Hin.
        apply list_elem_of_fmap in Hin as (t & [=] & _).
      * apply list_elem_of_singleton in Hin as [= _ ->]. done.
    + intros e [= ->]. exists url'. split.
      * by eapply list_elem_of_lookup_2.
      * apply elem_of_app. right. by apply list_elem_of_singleton.
Qed.

(** C2, as the code has it.  [ChromiumLoader.load] makes one fetch per
    URL, one at a time and in input order: the trace is a sequence of
    launch-completion pairs over a prefix of the URLs (all of them when
    the call returns), so a fetch is launched only after the one before
    it has completed, and at no moment is more than one fetch in
    flight, whatever the number of URLs. *)
Theorem page_fetcher_sequential (urls : list string) (w : World) :
  let r := exec (ChromiumLoader.load urls) w in
  events r = fetch_events (scrapes (events r))
  ∧ (scrapes (events r)).*1 `prefix_of` urls
  ∧ (∀ docs, result r = Returned docs → (scrapes (events r)).*1 = urls)
  ∧ (peak_in_flight 0 (events r) ≤ 1)%nat.
Proof.
  cbv zeta. destruct (load_run urls w) as (fetched & Hev & Hres).
  rewrite Hev, scrapes_fetch_events, peak_fetch_events.
  split_and!.
  - done.
  - destruct (result (exec (ChromiumLoader.load urls) w)) as [docs|e].
    + destruct Hres as [-> _]. rewrite fst_zip_take. apply prefix_take.
    + destruct Hres as (texts & url & -> & Hlook).
      rewrite fmap_app, fst_zip_take, length_fmap. cbn.
      rewrite <- (take_S_r _ _ _ Hlook). apply prefix_take.
  - intros docs Hret. rewrite Hret in Hres. destruct Hres as [-> Hlen].
    rewrite fst_zip_take, length_fmap, Hlen. apply firstn_all.
  - destruct fetched; lia.
Qed.

End PageFetcher.

(** ** Search Client *)

Section SearchClient.
Context `{Outside}.

(** C7, as the code has it.  Once the API key is configured and the
    search has been made: a response with an [error] field makes the
    Search Client fail with SearchProviderError, and the run ends there
    (no URL is selected, no page fetched: the search is its last event);
    a response with no [error] field and a missing or empty
    [organic_results] makes it fail with NoResultsError.  The [error]
    field is looked at first, so a response that has it fails with
    SearchProviderError whatever its [organic_results]. *)
Theorem search_client_errors (topic key : string) (w w' : World)
    (response : SearchResponse) :
  os_getenv "SERPAPI_API_KEY" w = Some key →
  key ≠ "" →
  get_dict (mkSearchParams topic "Austin,Texas" key) w = (response, w') →
  let r := exec (collect_serp_data_and_extract_text_from_webpages topic) w in
  let searched :=
    [EvGetenv "SERPAPI_API_KEY";
     EvSearch (mkSearchParams topic "Austin,Texas" key)] in
  (∀ e, error response = Some e →
     r = mkRun (Raised (SearchProviderError e)) w' searched)
  ∧ (error response = None →
     organic_results response = None ∨ organic_results response = Some [] →
     r = mkRun (Raised NoResultsError) w' searched).
Proof.
  intros Hkey Hne Hsearch. cbv zeta.
  unfold collect_serp_data_and_extract_text_from_webpages. cbn.
  rewrite Hkey. cbn.
  assert (String.eqb key "" = false) as -> by by apply String.eqb_neq.
  cbn. rewrite Hsearch. split.
  - intros e ->. done.
  - intros -> [-> | ->]; done.
Qed.

(** Without an API key the Search Client fails with ConfigurationError
    before any call to the search provider: reading the environment is
    the only event of the run. *)
Theorem search_client_needs_key (topic : string) (w : World) :
  truthy (os_getenv "SERPAPI_API_KEY" w) = false →
  exec (collect_serp_data_and_extract_text_from_webpages topic) w
  = mkRun (Raised ConfigurationError) w [EvGetenv "SERPAPI_API_KEY"].
Proof.
  intros Hkey. unfold collect_serp_data_and_extract_text_from_webpages.
  cbn. by rewrite Hkey.
Qed.

End SearchClient.

(** ** Summarizer *)

Section Summarizer.
Context `{Outside}.

(** C8.  When the splitter yields no chunk for the document, the
    Summarizer is the coroutine that returns [None] at once: awaited, it
    returns [None] without raising and without any external call, and as
    a task of the event loop it is finished, with [None], at its first
    step. *)
Theorem summarizer_no_chunks (document : Document)
    (parser : PydanticOutputParser) (llm : ChatOpenAI)
    (text_splitter : TextSplitter) (w : World) :
  split_documents text_splitter [document] = [] →
  create_summary_from_text document parser llm text_splitter = Ret None
  ∧ exec (create_summary_from_text document parser llm text_splitter) w
      = mkRun (Returned None) w []
  ∧ advance (create_summary_from_text document parser llm text_splitter) w
      = mkRun (Finished None) w [].
Proof.
  intros Hsplit. unfold create_summary_from_text. by rewrite Hsplit.
Qed.

(** The events of a Summarizer run on a document with a first chunk. *)
Lemma summarizer_events (document first : Document) (rest : list Document)
    (parser : PydanticOutputParser) (llm : ChatOpenAI)
    (text_splitter : TextSplitter) (w : World) :
  split_documents text_splitter [document] = first :: rest →
  invocations
    (events (exec (create_summary_from_text document parser llm
                     text_splitter) w))
  = [(mkChatOpenAI 0 "gpt-5",
      prompt_template (page_content first)
        (get_format_instructions parser))].
Proof.
  intros Hsplit. unfold create_summary_from_text. rewrite Hsplit. cbn.
  by repeat ask_world.
Qed.

(** The same for a Summarizer task at its first step in the event
    loop. *)
Lemma summarizer_task_events (document first : Document)
    (rest : list Document) (parser : PydanticOutputParser)
    (llm : ChatOpenAI) (text_splitter : TextSplitter) (w : World) :
  split_documents text_splitter [document] = first :: rest →
  invocations
    (events (advance (create_summary_from_text document parser llm
                        text_splitter) w))
  = [(mkChatOpenAI 0 "gpt-5",
      prompt_template (page_content first)
        (get_format_instructions parser))].
Proof.
  intros Hsplit. unfold create_summary_from_text. rewrite Hsplit. cbn.
  by repeat ask_world.
Qed.

(** The text put in the template occurs in the prompt, between two
    pieces that do not depend on it. *)
Lemma prompt_template_embeds (format_instructions : string) :
  ∃ before after : string, ∀ text,
    prompt_template text format_instructions = before +:+ text +:+ after.
Proof.
  exists (String.substring 0 (String.length (prompt_template "" "") - 10)
            (prompt_template "" "")),
         (nl +:+ indent +:+ format_instructions +:+ nl +:+ indent).
  intros text. vm_compute. reflexivity.
Qed.

(** C9.  When the splitter yields chunks [first :: rest], the Summarizer
    makes exactly one model invocation, awaited directly or run as a
    task of the event loop, and its prompt is the template filled with
    the text of [first] and the parser's format instructions: the text
    of [first] occurs in the prompt, between the two pieces of the
    template that surround any text put in it.  The later chunks play no
    part: a splitter that yields the same first chunk and any other
    later chunks gives the very same coroutine. *)
Theorem summarizer_first_chunk_only (document first : Document)
    (rest : list Document) (parser : PydanticOutputParser)
    (llm : ChatOpenAI) (text_splitter : TextSplitter) (w : World) :
  split_documents text_splitter [document] = first :: rest →
  let summarizer :=
    create_summary_from_text document parser llm text_splitter in
  let invocation :=
    (mkChatOpenAI 0 "gpt-5",
     prompt_template (page_content first)
       (get_format_instructions parser)) in
  invocations (events (exec summarizer w)) = [invocation]
  ∧ invocations (events (advance summarizer w)) = [invocation]
  ∧ (∃ before after : string,
       (∀ text, prompt_template text (get_format_instructions parser)
                = before +:+ text +:+ after)
       ∧ invocations (events (exec summarizer w))
         = [(mkChatOpenAI 0 "gpt-5",
             before +:+ page_content first +:+ after)])
  ∧ ∀ (other : TextSplitter) (rest' : list Document),
      split_documents other [document] = first :: rest' →
      create_summary_from_text document parser llm other = summarizer.
Proof.
  intros Hsplit. cbv zeta. split_and!.
  - by eapply summarizer_events.
  - by eapply summarizer_task_events.
  - destruct (prompt_template_embeds (get_format_instructions parser))
      as (before & after & Hembeds).
    exists before, after. split; [done|].
    rewrite <- Hembeds. by eapply summarizer_events.
  - intros other rest' Hother. unfold create_summary_from_text.
    by rewrite Hsplit, Hother.
Qed.

(** C10.  The [llm] argument of the Summarizer is dead: two calls that
    differ only in it are the same coroutine, hence run alike in every
    world, and every model invocation they make is on
    [ChatOpenAI(temperature=0, model="gpt-5")]. *)
Theorem summarizer_ignores_llm (document : Document)
    (parser : PydanticOutputParser) (llm1 llm2 : ChatOpenAI)
    (text_splitter : TextSplitter) :
  create_summary_from_text document parser llm1 text_splitter
  = create_summary_from_text document parser llm2 text_splitter
  ∧ (∀ w, exec (create_summary_from_text document parser llm1
                  text_splitter) w
          = exec (create_summary_from_text document parser llm2
                    text_splitter) w)
  ∧ (∀ w used prompt,
       (used, prompt) ∈ invocations
         (events (exec (create_summary_from_text document parser llm1
                          text_splitter) w)) →
       used = mkChatOpenAI 0 "gpt-5").
Proof.
  split_and!.
  - unfold create_summary_from_text.
    by destruct (split_documents text_splitter [document]).
  - intros w. unfold create_summary_from_text.
    by destruct (split_documents text_splitter [document]).
  - intros w used prompt.
    destruct (split_documents text_splitter [document])
      as [|first rest] eqn:Hsplit.
    + unfold create_summary_from_text. rewrite Hsplit. cbn.
      intros Hin. by apply elem_of_nil in Hin.
    + rewrite (summarizer_events _ _ _ _ _ _ _ Hsplit).
      intros Hin. by apply list_elem_of_singleton in Hin as [= -> _].
Qed.

(** C4.  A DocumentSummary returned by the Summarizer carries the
    metadata of the document it was made from, whatever the parsed model
    reply held in that field. *)
Theorem summarizer_metadata (document : Document)
    (parser : PydanticOutputParser) (llm : ChatOpenAI)
    (text_splitter : TextSplitter) (w : World)
    (summary : DocumentSummary) :
  result (exec (create_summary_from_text document parser llm
                  text_splitter) w) = Returned (Some summary) →
  metadata summary = Some (doc_metadata document).
Proof.
  unfold create_summary_from_text.
  destruct (split_documents text_splitter [document]) as [|first rest];
    [done|].
  cbn. repeat ask_world; try done. by intros [= <-].
Qed.

End Summarizer.

(** ** The event loop *)

Section Gather.
Context `{Outside} {A D : Type}.
Variable J : D → A → Prop.

Lemma pending_le_length (ts : list (task A)) :
  (pending ts ≤ length ts)%nat.
Proof. apply length_filter. Qed.

Lemma pending_cons (t : task A) (ts : list (task A)) :
  pending (t :: ts) = ((if is_pending t then 1 else 0) + pending ts)%nat.
Proof.
  unfold pending. rewrite filter_cons.
  destruct (is_pending t); by case_decide.
Qed.

(** Resuming a task keeps every task to its invariant. *)
Lemma resume_nth_ok (n : nat) (ds : list D) (ts : list (task A))
    (w : World) :
  Forall2 (task_ok J) ds ts →
  Forall2 (task_ok J) ds (result (resume_nth n ts w)).
Proof.
  intros Hok. revert n w.
  induction Hok as [|d t ds ts Ht Hok IH]; intros n w; [by constructor|].
  destruct t as [a|e|req k]; cbn.
  - constructor; [done|apply IH].
  - constructor; [done|apply IH].
  - destruct n as [|n]; cbn.
    + constructor; [|done]. specialize (Ht w).
      by destruct (result (complete req k w)).
    + constructor; [done|apply IH].
Qed.

(** Resuming one of the suspended tasks leaves one fewer suspended. *)
Lemma resume_nth_pending (n : nat) (ds : list D) (ts : list (task A))
    (w : World) :
  Forall2 (task_ok J) ds ts →
  (n < pending ts)%nat →
  S (pending (result (resume_nth n ts w))) = pending ts.
Proof.
  intros Hok. revert n w.
  induction Hok as [|d t ds ts Ht Hok IH]; intros n w Hn.
  { unfold pending in Hn. cbn in Hn. lia. }
  rewrite pending_cons in Hn. rewrite pending_cons.
  destruct t as [a|e|req k]; cbn in *.
  - rewrite pending_cons. cbn. by apply IH.
  - rewrite pending_cons. cbn. by apply IH.
  - destruct n as [|n]; cbn.
    + rewrite pending_cons. specialize (Ht w).
      by destruct (result (complete req k w)).
    + rewrite pending_cons. cbn. f_equal. apply IH. lia.
Qed.

(** When no task failed and none is suspended, every task has a value,
    and the values are those of the inputs, position by position. *)
Lemma values_ok (ds : list D) (ts : list (task A)) :
  Forall2 (task_ok J) ds ts →
  head (omap failure ts) = None →
  pending ts = 0%nat →
  Forall2 J ds (omap value ts).
Proof.
  induction 1 as [|d t ds ts Ht Hok IH]; intros Hfail Hpend;
    [by constructor|].
  rewrite pending_cons in Hpend.
  destruct t as [a|e|req k]; cbn in *; [|done|lia].
  constructor; [done|]. by apply IH.
Qed.

(** With fuel for every suspended task the loop runs to its end, and
    the values it returns are those of the inputs, position by
    position. *)
Lemma event_loop_ok (fuel : nat) (ds : list D) (ts : list (task A))
    (w : World) :
  Forall2 (task_ok J) ds ts →
  (pending ts ≤ fuel)%nat →
  match result (event_loop fuel ts w) with
  | None => False
  | Some (Raised _) => True
  | Some (Returned results) => Forall2 J ds results
  end.
Proof.
  revert ts w. induction fuel as [|fuel IH]; intros ts w Hok Hfuel.
  - cbn. destruct (head (omap failure ts)) eqn:Hfail; [done|].
    case_decide as Hpend; cbn; [|lia].
    by apply values_ok.
  - cbn. destruct (head (omap failure ts)) eqn:Hfail; [done|].
    case_decide as Hpend; cbn.
    + by apply values_ok.
    + set (n := (next_ready w (pending ts) `mod` pending ts)%nat).
      assert (n < pending ts)%nat as Hn by by apply Nat.mod_upper_bound.
      apply IH.
      * by apply resume_nth_ok.
      * pose proof (resume_nth_pending n ds ts w Hok Hn). lia.
Qed.

(** The first steps of the tasks establish the invariant. *)
Lemma start_all_ok (f : D → coro A) (ds : list D) (w : World) :
  (∀ d w, task_ok J d (result (advance (f d) w))) →
  Forall2 (task_ok J) ds (result (start_all (f <$> ds) w)).
Proof.
  intros Hf. revert w. induction ds as [|d ds IH]; intros w; cbn.
  - constructor.
  - constructor; [apply Hf|apply IH].
Qed.

Lemma gather_ok (f : D → coro A) (fuel : nat) (ds : list D) (w : World) :
  (∀ d w, task_ok J d (result (advance (f d) w))) →
  (length ds ≤ fuel)%nat →
  match result (gather fuel (f <$> ds) w) with
  | None => False
  | Some (Raised _) => True
  | Some (Returned results) => Forall2 J ds results
  end.
Proof.
  intros Hf Hfuel. unfold gather. cbn.
  apply event_loop_ok.
  - by apply start_all_ok.
  - pose proof (start_all_ok f ds w Hf) as Hok.
    apply Forall2_length in Hok.
    pose proof (pending_le_length (result (start_all (f <$> ds) w))).
    lia.
Qed.

Lemma gather_single (fuel : nat) (c : coro A) (w : World) :
  gather fuel [c] w
  = emit (events (advance c w))
      (event_loop fuel [result (advance c w)] (after (advance c w))).
Proof. unfold gather, emit. cbn. by rewrite app_nil_r. Qed.

(** One turn of the loop when a single task is suspended. *)
Lemma event_loop_single_pending (fuel : nat) (req : request)
    (k : string → coro A) (w : World) :
  event_loop (S fuel) [Pending req k] w
  = emit (events (complete req k w))
      (event_loop fuel [result (complete req k w)]
         (after (complete req k w))).
Proof.
  cbn -[complete Nat.modulo].
  change (pending [Pending req k]) with 1%nat.
  rewrite decide_False by lia. rewrite Nat.mod_1_r. done.
Qed.

(** Awaiting a coroutine directly is the event loop run on that
    coroutine as its only task: same outcome, same world, same events. *)
Lemma exec_as_event_loop (c : coro A) (w : World) :
  ∃ fuel,
    result (gather fuel [c] w)
    = Some (match result (exec c w) with
            | Returned a => Returned [a]
            | Raised e => Raised e
            end)
    ∧ after (gather fuel [c] w) = after (exec c w)
    ∧ events (gather fuel [c] w) = events (exec c w).
Proof.
  revert w. induction c as [a|e|name k IH|params k IH|s k IH|k IH|req k IH];
    intros w.
  - by exists 0%nat.
  - by exists 0%nat.
  - destruct (IH (os_getenv name w) w) as (fuel & Hres & Haft & Hev).
    exists fuel. rewrite gather_single in *. cbn in *.
    rewrite Hres, Haft, Hev. done.
  - destruct (get_dict params w) as [r w'] eqn:Hdict.
    destruct (IH r w') as (fuel & Hres & Haft & Hev).
    exists fuel. rewrite gather_single in *. cbn in *.
    rewrite Hdict. cbn. rewrite Hres, Haft, Hev. done.
  - destruct (IH w) as (fuel & Hres & Haft & Hev).
    exists fuel. rewrite gather_single in *. cbn in *.
    rewrite Hres, Haft, Hev. done.
  - destruct (time_time w) as [t w'] eqn:Htime.
    destruct (IH t w') as (fuel & Hres & Haft & Hev).
    exists fuel. rewrite gather_single in *. cbn in *.
    rewrite Htime. done.
  - destruct (respond req w) as [[e|v] w'] eqn:Hreply.
    + exists 1%nat.
      rewrite gather_single. cbn [advance result after events].
      rewrite event_loop_single_pending. unfold complete.
      cbn. rewrite Hreply. done.
    + destruct (IH v w') as (fuel & Hres & Haft & Hev).
      exists (S fuel). rewrite gather_single in Hres, Haft, Hev.
      rewrite gather_single. cbn [advance result after events].
      rewrite event_loop_single_pending. unfold complete.
      cbn in *. rewrite Hreply. cbn.
      rewrite Hres, Haft, Hev. done.
Qed.

End Gather.

(** ** Summary Orchestrator *)

Section Orchestrator.
Context `{Outside}.

(** Every Summarizer task suspends at most once, at its model
    invocation, and what it returns is a result for its document. *)
Lemma summarizer_task_ok (parser : PydanticOutputParser)
    (llm : ChatOpenAI) (text_splitter : TextSplitter)
    (document : Document) (w : World) :
  task_ok (summary_of text_splitter) document
    (result (advance (create_summary_from_text document parser llm
                        text_splitter) w)).
Proof.
  unfold create_summary_from_text.
  destruct (split_documents text_splitter [document])
    as [|first rest] eqn:Hsplit; cbn.
  { split; [done|]. intros summary [=]. }
  ask_world. intros w'. unfold complete. repeat ask_world; try done.
  split.
  - split; [done|]. by rewrite Hsplit.
  - by intros summary [= <-].
Qed.

Lemma nulls_cons {A : Type} (x : option A) (results : list (option A)) :
  nulls (x :: results)
  = ((if x is None then 1 else 0) + nulls results)%nat.
Proof.
  unfold nulls. rewrite filter_cons. destruct x; by case_decide.
Qed.

(** The results that are not null are all the results but the nulls. *)
Lemma length_somes {A : Type} (results : list (option A)) :
  (length (omap id results) + nulls results = length results)%nat.
Proof.
  induction results as [|[a|] results IH]; [done|..];
    rewrite nulls_cons; cbn; lia.
Qed.

(** C3.  The Summary Orchestrator over M documents, with fuel for M
    completions: the loop runs to its end; when no Summarizer invocation
    raises, [gather] hands back M results, the i-th being that of the
    i-th document, and the orchestrator returns the results that are not
    null, in order, so M minus the number of nulls of them; when all M
    results are null it fails with NoSummariesCreatedError.  (When an
    invocation raises, the orchestrator raises the same exception.) *)
Theorem summary_orchestrator_count (fuel : nat)
    (text_documents : list Document) (parser : PydanticOutputParser)
    (llm : ChatOpenAI) (text_splitter : TextSplitter) (w : World) :
  (length text_documents ≤ fuel)%nat →
  let tasks :=
    (λ document,
       create_summary_from_text document parser llm text_splitter)
      <$> text_documents in
  let r :=
    create_all_summaries fuel text_documents parser llm text_splitter w in
  match result (gather fuel tasks w) with
  | None => False
  | Some (Raised e) => result r = Some (Raised e)
  | Some (Returned results) =>
      length results = length text_documents
      ∧ Forall2 (summary_of text_splitter) text_documents results
      ∧ ((nulls results < length text_documents)%nat →
         ∃ summaries,
           result r = Some (Returned summaries)
           ∧ summaries = omap id results
           ∧ length summaries
             = (length text_documents - nulls results)%nat)
      ∧ (nulls results = length text_documents →
         result r = Some (Raised NoSummariesCreatedError))
  end.
Proof.
  intros Hfuel. cbv zeta.
  pose proof (gather_ok (summary_of text_splitter)
    (λ document,
       create_summary_from_text document parser llm text_splitter)
    fuel text_documents w
    (summarizer_task_ok parser llm text_splitter) Hfuel) as Hg.
  unfold create_all_summaries.
  set (g := gather fuel _ w) in *. clearbody g. cbn.
  destruct (result g) as [[results|e]|]; [|done..].
  pose proof (Forall2_length _ _ _ Hg) as Hlen.
  pose proof (length_somes results) as Hsomes.
  split_and!; [done..| |].
  - intros Hnulls. exists (omap id results).
    case_decide as Hzero; [lia|]. cbn. split_and!; [done..|lia].
  - intros Hnulls. case_decide as Hzero; [done|lia].
Qed.

Lemma peak_ge_cur (cur : nat) (evs : list event) :
  (cur ≤ peak_in_flight cur evs)%nat.
Proof.
  revert cur. induction evs as [|ev evs IH]; intros cur; cbn; [done|].
  destruct ev; try apply IH.
  - specialize (IH (S cur)). lia.
  - lia.
Qed.

Lemma peak_app_ge (cur : nat) (evs evs' : list event) :
  (peak_in_flight cur evs ≤ peak_in_flight cur (evs ++ evs'))%nat.
Proof.
  revert cur. induction evs as [|ev evs IH]; intros cur; cbn.
  - apply peak_ge_cur.
  - destruct ev; try apply IH.
    specialize (IH (Nat.pred cur)). lia.
Qed.

(** The first steps of the Summarizer tasks launch one model invocation
    for each document that has chunks, and complete none. *)
Lemma start_all_peak (parser : PydanticOutputParser) (llm : ChatOpenAI)
    (text_splitter : TextSplitter) (text_documents : list Document)
    (cur : nat) (w : World) :
  peak_in_flight cur
    (events (start_all
               ((λ document,
                   create_summary_from_text document parser llm
                     text_splitter) <$> text_documents) w))
  = (cur + length (with_chunks text_splitter text_documents))%nat.
Proof.
  revert cur w. induction text_documents as [|d ds IH]; intros cur w.
  { cbn. lia. }
  unfold with_chunks. rewrite filter_cons. fold (with_chunks text_splitter ds).
  cbn. unfold create_summary_from_text at 1 3.
  destruct (split_documents text_splitter [d]) as [|first rest] eqn:Hsplit.
  - rewrite decide_False by (by intros Hne). cbn. apply IH.
  - rewrite decide_True by done. cbn.
    destruct (time_time w) as [start_time w1]. cbn.
    rewrite IH. lia.
Qed.

(** The Summary Orchestrator fans out: the model invocations of all the
    documents that have chunks are in flight together, before any of
    them has completed. *)
Theorem summary_orchestrator_fans_out (fuel : nat)
    (text_documents : list Document) (parser : PydanticOutputParser)
    (llm : ChatOpenAI) (text_splitter : TextSplitter) (w : World) :
  (length (with_chunks text_splitter text_documents)
   ≤ peak_in_flight 0
       (events (create_all_summaries fuel text_documents parser llm
                  text_splitter w)))%nat.
Proof.
  unfold create_all_summaries.
  set (tasks := _ <$> text_documents).
  assert (∀ evs,
    (length (with_chunks text_splitter text_documents)
     ≤ peak_in_flight 0 (events (gather fuel tasks w) ++ evs))%nat)
    as Hgather.
  { intros evs. unfold gather. cbn. rewrite <- app_assoc.
    etrans; [|apply peak_app_ge].
    subst tasks. by rewrite start_all_peak. }
  set (g := gather fuel tasks w) in *. clearbody g.
  cbn. destruct (result g) as [[results|e]|]; cbn.
  - case_decide; cbn.
    + specialize (Hgather []). by rewrite app_nil_r in Hgather.
    + apply Hgather.
  - specialize (Hgather []). by rewrite app_nil_r in Hgather.
  - specialize (Hgather []). by rewrite app_nil_r in Hgather.
Qed.

End Orchestrator.

(** ** URL Selector: what is selected, and the edges of the cap *)

Section UrlSelection.
Context `{Outside}.

Lemma slice_to_all {A : Type} (n : Z) (l : list A) :
  Z.of_nat (length l) ≤ n → slice_to n l = l.
Proof.
  intros Hn. unfold slice_to. rewrite decide_True by lia.
  apply take_ge. lia.
Qed.

Lemma slice_to_negative {A : Type} (n : Z) (l : list A) :
  n < 0 → slice_to n l = slice_to (Z.max 0 (Z.of_nat (length l) + n)) l.
Proof.
  intros Hn. unfold slice_to.
  rewrite decide_False by lia. rewrite decide_True by lia.
  f_equal. lia.
Qed.

(** The selection depends on the column only through the slice. *)
Lemma select_urls_slice (df : DataFrame) (n m : Z) (col : string)
    (column : list string) :
  df !! col = Some column →
  slice_to n column = slice_to m column →
  select_urls df n col = select_urls df m col.
Proof.
  intros Hcol Hslice.
  rewrite !(select_urls_lookup _ _ _ _ Hcol). cbv zeta. by rewrite Hslice.
Qed.

(** The URLs selected are exactly the non-empty cells among the sliced
    rows, each once, and there is at least one; the selection fails with
    NoValidURLsError exactly when every sliced cell is empty (or no row
    is sliced). *)
Theorem url_selector_selects (df : DataFrame) (n : Z) (col : string)
    (column : list string) :
  df !! col = Some column →
  match select_urls df n col with
  | inr urls =>
      NoDup urls ∧ urls ≠ []
      ∧ ∀ url, url ∈ urls ↔ url ∈ slice_to n column ∧ url ≠ ""
  | inl e =>
      e = NoValidURLsError
      ∧ ∀ url, url ∈ slice_to n column → url = ""
  end.
Proof.
  intros Hcol. rewrite (select_urls_lookup _ _ _ _ Hcol). cbv zeta.
  case_decide as Hlen.
  - split; [done|]. intros url Hin.
    apply length_zero_iff_nil in Hlen. rewrite list_of_set_nil in Hlen.
    destruct (decide (url = "")) as [|Hne]; [done|].
    assert (url ∈ filter (λ url : string, url ≠ "") (slice_to n column))
      as Hkept by by apply list_elem_of_filter.
    rewrite Hlen in Hkept. by apply elem_of_nil in Hkept.
  - split_and!; [apply list_of_set_NoDup| |].
    + intros Hnil. by rewrite Hnil in Hlen.
    + intros url. rewrite list_of_set_elem, list_elem_of_filter. tauto.
Qed.

(** The edges of the cap: a cap of zero selects nothing and fails; a cap
    at or above the number of rows looks at every row; a negative cap
    -k is no cap but looks at all rows except the last k. *)
Theorem url_selector_cap_edges (df : DataFrame) (col : string)
    (column : list string) :
  df !! col = Some column →
  select_urls df 0 col = inl NoValidURLsError
  ∧ (∀ n, Z.of_nat (length column) ≤ n →
       select_urls df n col
       = select_urls df (Z.of_nat (length column)) col)
  ∧ (∀ n, n < 0 →
       select_urls df n col
       = select_urls df (Z.max 0 (Z.of_nat (length column) + n)) col).
Proof.
  intros Hcol. split_and!.
  - rewrite (select_urls_lookup _ _ _ _ Hcol). cbv zeta.
    change (slice_to 0 column) with (@nil string).
    rewrite filter_nil, (proj2 (list_of_set_nil [])) by done. done.
  - intros n Hn. apply (select_urls_slice _ _ _ _ _ Hcol).
    rewrite !slice_to_all by lia. done.
  - intros n Hn. apply (select_urls_slice _ _ _ _ _ Hcol).
    by rewrite (slice_to_negative n) by done.
Qed.

(** When the selection fails, [get_html_content_from_urls] raises before
    any page is fetched: a missing column gives a KeyError naming it, a
    column with no non-empty cell among the sliced rows gives
    NoValidURLsError. *)
Theorem url_selector_fails_before_fetching (df : DataFrame) (n : Z)
    (col : string) (w : World) :
  (df !! col = None →
   exec (get_html_content_from_urls df n col) w
   = mkRun (Raised (KeyError col)) w [])
  ∧ (∀ column, df !! col = Some column →
       (∀ url, url ∈ slice_to n column → url = "") →
       exec (get_html_content_from_urls df n col) w
       = mkRun (Raised NoValidURLsError) w []).
Proof.
  split.
  - intros Hcol. unfold get_html_content_from_urls, select_urls.
    by rewrite Hcol.
  - intros column Hcol Hall.
    unfold get_html_content_from_urls.
    rewrite (select_urls_lookup _ _ _ _ Hcol). cbv zeta.
    assert (filter (λ url : string, url ≠ "") (slice_to n column) = [])
      as ->.
    { apply elem_of_nil_inv. intros url Hin.
      apply list_elem_of_filter in Hin as [Hne Hin]. by apply Hne, Hall. }
    rewrite (proj2 (list_of_set_nil [])) by done. done.
Qed.

End UrlSelection.

(** ** Page Fetcher and pipeline: what is fetched, and what comes back *)

Section Pipeline.
Context `{Outside}.

(** Awaiting a coroutine and returning its value is awaiting it. *)
Lemma exec_bind_ret {A : Type} (c : coro A) (w : World) :
  exec (bind c (λ a, Ret a)) w = exec c w.
Proof.
  rewrite exec_bind. unfold emit.
  destruct (result (exec c w)) as [a|e] eqn:Hres; cbn.
  - rewrite app_nil_r, <- Hres. done.
  - by rewrite <- Hres.
Qed.

(** Awaiting a coroutine and returning a function of its value. *)
Lemma exec_bind_pure {A B : Type} (c : coro A) (f : A → B) (w : World) :
  exec (bind c (λ a, Ret (f a))) w
  = mkRun (match result (exec c w) with
           | Returned a => Returned (f a)
           | Raised e => Raised e
           end) (after (exec c w)) (events (exec c w)).
Proof.
  rewrite exec_bind. unfold emit.
  destruct (result (exec c w)) as [a|e]; cbn; [|done].
  by rewrite app_nil_r.
Qed.

(** The documents of the loader are built from the fetched texts alone:
    none has metadata. *)
Lemma load_returns_texts (urls : list string) (w : World)
    (docs : list Document) :
  result (exec (ChromiumLoader.load urls) w) = Returned docs →
  ∃ texts, docs = Document_of_text <$> texts.
Proof.
  unfold ChromiumLoader.load. rewrite exec_bind_pure. cbn.
  destruct (result (exec (ChromiumLoader.scrape_each urls) w))
    as [texts|e]; [|done].
  intros [= <-]. by exists texts.
Qed.

Lemma load_fetched_prefix (urls : list string) (w : World) :
  (scrapes (events (exec (ChromiumLoader.load urls) w))).*1
    `prefix_of` urls.
Proof.
  destruct (load_run urls w) as (fetched & -> & Hres).
  rewrite scrapes_fetch_events.
  destruct (result (exec (ChromiumLoader.load urls) w)) as [docs|e].
  - destruct Hres as [-> _]. rewrite fst_zip_take. apply prefix_take.
  - destruct Hres as (texts & url & -> & Hlook).
    rewrite fmap_app, fst_zip_take, length_fmap. cbn.
    rewrite <- (take_S_r _ _ _ Hlook). apply prefix_take.
Qed.

(** The loader fails fast: when a fetch raises, the fetches made are
    those of the URLs up to and including the failing one, in order, all
    the earlier ones succeeded, and no later URL is fetched. *)
Theorem page_fetcher_fails_fast (urls : list string) (w : World)
    (e : exn) :
  result (exec (ChromiumLoader.load urls) w) = Raised e →
  ∃ n url texts,
    urls !! n = Some url
    ∧ length texts = n
    ∧ scrapes (events (exec (ChromiumLoader.load urls) w))
      = zip (take n urls) (inr <$> texts) ++ [(url, inl e)]
    ∧ (scrapes (events (exec (ChromiumLoader.load urls) w))).*1
      = take (S n) urls.
Proof.
  intros Hres. destruct (load_run urls w) as (fetched & -> & Hrun).
  rewrite Hres in Hrun. destruct Hrun as (texts & url & -> & Hlook).
  rewrite scrapes_fetch_events.
  exists (length texts), url, texts. split_and!; [done..| |].
  - f_equal. symmetry. apply zip_with_take_l'. rewrite length_fmap. lia.
  - rewrite fmap_app, fst_zip_take, length_fmap. cbn.
    by rewrite <- (take_S_r _ _ _ Hlook).
Qed.

Lemma select_urls_NoDup (df : DataFrame) (n : Z)
    (col : string) (urls : list string) :
  select_urls df n col = inr urls →
  NoDup urls ∧ ("" ∉ urls) ∧ urls ≠ []
  ∧ (0 ≤ n → Z.of_nat (length urls) ≤ n).
Proof.
  intros Hsel. apply select_urls_inr in Hsel as (column & _ & -> & Hne).
  split_and!; [apply list_of_set_NoDup| |done|].
  - intros Hin. rewrite list_of_set_elem, list_elem_of_filter in Hin.
    by destruct Hin.
  - intros Hn. pose proof (slice_to_length n column Hn).
    pose proof (list_of_set_length
                  (filter (λ url, url ≠ "") (slice_to n column))).
    pose proof (length_filter (λ url : string, url ≠ "")
                  (slice_to n column)).
    lia.
Qed.

(** [get_html_content_from_urls] is the selection followed by the
    loader. *)
Lemma get_html_content_run (df : DataFrame) (n : Z) (col : string)
    (w : World) :
  exec (get_html_content_from_urls df n col) w
  = match select_urls df n col with
    | inl e => mkRun (Raised e) w []
    | inr urls => exec (ChromiumLoader.load urls) w
    end.
Proof.
  unfold get_html_content_from_urls.
  destruct (select_urls df n col) as [e|urls]; [done|].
  apply exec_bind_ret.
Qed.

Lemma fetched_documents_bounds (df : DataFrame) (n : Z) (col : string)
    (w : World) (docs : list Document) :
  result (exec (get_html_content_from_urls df n col) w) = Returned docs →
  (1 ≤ length docs)%nat ∧ (0 ≤ n → Z.of_nat (length docs) ≤ n).
Proof.
  rewrite get_html_content_run.
  destruct (select_urls df n col) as [e|urls] eqn:Hsel; [done|].
  intros Hres. destruct (load_run urls w) as (fetched & Hev & Hrun).
  rewrite Hres in Hrun. destruct Hrun as [_ ->].
  destruct (select_urls_NoDup _ _ _ _ Hsel) as (_ & _ & Hne & Hcap).
  split; [|done]. destruct urls; [done|cbn; lia].
Qed.

(** What [get_html_content_from_urls] returns: one document for each
    selected URL, in the order of selection, holding the page fetched
    for it and no metadata (the URL itself is not kept); for a cap
    N >= 0, between 1 and N documents. *)
Theorem fetched_documents (df : DataFrame) (n : Z) (col : string)
    (w : World) (docs : list Document) :
  result (exec (get_html_content_from_urls df n col) w) = Returned docs →
  ∃ urls,
    select_urls df n col = inr urls
    ∧ length docs = length urls
    ∧ scrapes (events (exec (get_html_content_from_urls df n col) w))
      = zip urls (inr ∘ page_content <$> docs)
    ∧ Forall (λ d, doc_metadata d = ∅) docs
    ∧ (1 ≤ length docs)%nat
    ∧ (0 ≤ n → Z.of_nat (length docs) ≤ n).
Proof.
  rewrite get_html_content_run.
  destruct (select_urls df n col) as [e|urls] eqn:Hsel; [done|].
  intros Hres. exists urls.
  destruct (load_run urls w) as (fetched & Hev & Hrun).
  rewrite Hres in Hrun. destruct Hrun as [-> Hlen].
  rewrite Hev, scrapes_fetch_events.
  destruct (select_urls_NoDup _ _ _ _ Hsel) as (_ & _ & Hne & Hcap).
  split_and!; [done..| | |].
  - destruct (load_returns_texts _ _ _ Hres) as [texts ->].
    by apply Forall_fmap, Forall_true.
  - rewrite Hlen. destruct urls; [done|cbn; lia].
  - rewrite Hlen. done.
Qed.

Lemma searches_fetch_events (fetched : list (string * (exn + string))) :
  searches (fetch_events fetched) = [].
Proof. induction fetched as [|[url reply] fetched IH]; [done|apply IH]. Qed.

(** The fetches of [get_html_content_from_urls], whether it returns or
    raises. *)
Lemma get_html_content_fetches (df : DataFrame) (n : Z) (col : string)
    (w : World) :
  let evs := events (exec (get_html_content_from_urls df n col) w) in
  searches evs = []
  ∧ NoDup (scrapes evs).*1
  ∧ ("" ∉ (scrapes evs).*1)
  ∧ (0 ≤ n → Z.of_nat (length (scrapes evs)) ≤ n).
Proof.
  cbv zeta. rewrite get_html_content_run.
  destruct (select_urls df n col) as [e|urls] eqn:Hsel.
  { cbn. split_and!; [done|constructor|by intros ?%elem_of_nil|lia]. }
  destruct (select_urls_NoDup _ _ _ _ Hsel) as (Hnd & Hempty & _ & Hcap).
  pose proof (load_fetched_prefix urls w) as [rest Hrest].
  destruct (load_run urls w) as (fetched & Hev & _).
  rewrite Hev in *. rewrite scrapes_fetch_events in *.
  rewrite Hrest in Hnd, Hempty, Hcap.
  apply NoDup_app in Hnd as (Hnd & _ & _).
  split_and!; [apply searches_fetch_events|done| |].
  - intros Hin. apply Hempty, elem_of_app. by left.
  - intros Hn. specialize (Hcap Hn).
    rewrite length_app, length_fmap in Hcap. lia.
Qed.

(** [get_html_content_from_urls] never fetches the same URL twice, never
    fetches the empty URL, and for a cap N >= 0 never fetches more than
    N pages, whether the call returns or a fetch raises. *)
Theorem url_fetch_discipline (df : DataFrame) (n : Z) (col : string)
    (w : World) :
  let fetched :=
    (scrapes (events (exec (get_html_content_from_urls df n col) w))).*1 in
  NoDup fetched ∧ ("" ∉ fetched)
  ∧ (0 ≤ n → Z.of_nat (length fetched) ≤ n).
Proof.
  cbv zeta.
  destruct (get_html_content_fetches df n col w) as (_ & Hnd & Hne & Hcap).
  split_and!; [done..|]. by rewrite length_fmap.
Qed.

(** The pipeline, stage by stage. *)
Lemma collect_run (topic : string) (w : World) :
  exec (collect_serp_data_and_extract_text_from_webpages topic) w
  = let key := os_getenv "SERPAPI_API_KEY" w in
    if truthy key then
      let params := mkSearchParams topic "Austin,Texas" (default "" key) in
      emit [EvGetenv "SERPAPI_API_KEY"; EvSearch params]
        match error (get_dict params w).1 with
        | Some e =>
            mkRun (Raised (SearchProviderError e)) (get_dict params w).2 []
        | None =>
            match organic_results (get_dict params w).1 with
            | None | Some [] =>
                mkRun (Raised NoResultsError) (get_dict params w).2 []
            | Some rows =>
                let r :=
                  exec (get_html_content_from_urls (DataFrame_of_rows rows)
                          3 "link") (get_dict params w).2 in
                mkRun (match result r with
                       | Returned docs =>
                           Returned (extract_text_from_webpages docs)
                       | Raised e => Raised e
                       end) (after r) (events r)
            end
        end
    else mkRun (Raised ConfigurationError) w [EvGetenv "SERPAPI_API_KEY"].
Proof.
  unfold collect_serp_data_and_extract_text_from_webpages. cbn.
  destruct (truthy (os_getenv "SERPAPI_API_KEY" w)); cbn; [|done].
  destruct (get_dict _ w) as [response w']. cbn.
  destruct (error response) as [e|]; [done|].
  destruct (organic_results response) as [[|row rows]|]; [done| |done].
  rewrite exec_bind_pure. done.
Qed.

(** The pipeline touches the outside world within fixed limits: it
    makes at most one search, with the topic, the location
    "Austin,Texas" and the configured key; it fetches no page unless it
    searched, at most three pages, never the same URL twice and never
    the empty URL. *)
Theorem pipeline_limits (topic : string) (w : World) :
  let evs :=
    events (exec (collect_serp_data_and_extract_text_from_webpages topic)
              w) in
  (searches evs = [] ∧ scrapes evs = []
   ∨ ∃ key, os_getenv "SERPAPI_API_KEY" w = Some key ∧ key ≠ ""
       ∧ searches evs = [mkSearchParams topic "Austin,Texas" key])
  ∧ NoDup (scrapes evs).*1
  ∧ ("" ∉ (scrapes evs).*1)
  ∧ (length (scrapes evs) ≤ 3)%nat.
Proof.
  cbv zeta. rewrite collect_run. cbv zeta.
  destruct (os_getenv "SERPAPI_API_KEY" w) as [key|] eqn:Hkey; cbn;
    [|split_and!; [by left|constructor|by intros ?%elem_of_nil|lia]].
  destruct (String.eqb key "") eqn:Hne; cbn;
    [split_and!; [by left|constructor|by intros ?%elem_of_nil|lia]|].
  apply String.eqb_neq in Hne.
  set (params := mkSearchParams topic "Austin,Texas" key).
  destruct (error (get_dict params w).1) as [e|]; cbn;
    [split_and!; [right; by exists key|constructor
                 |by intros ?%elem_of_nil|lia]|].
  destruct (organic_results (get_dict params w).1) as [[|row rows]|]; cbn;
    [split_and!; [right; by exists key|constructor
                 |by intros ?%elem_of_nil|lia]|
    |split_and!; [right; by exists key|constructor
                 |by intros ?%elem_of_nil|lia]].
  destruct (get_html_content_fetches (DataFrame_of_rows (row :: rows)) 3
              "link" (get_dict params w).2) as (Hs & Hnd & Hempty & Hcap).
  specialize (Hcap ltac:(lia)). unfold scrapes, searches in *.
  split_and!; [|done..|lia].
  right. exists key. split_and!; [done..|]. by rewrite Hs.
Qed.

(** Once the search has answered with results, the pipeline is
    [get_html_content_from_urls] on the DataFrame of the results with
    the default cap 3 and the column "link", followed by the text
    extraction: a KeyError for a missing "link" column, a
    NoValidURLsError or the exception of a page fetch reach the caller
    unchanged, and the text extraction is applied to all the fetched
    documents at once. *)
Theorem pipeline_after_search (topic key : string) (w w' : World)
    (response : SearchResponse) (row : Row) (rows : list Row) :
  os_getenv "SERPAPI_API_KEY" w = Some key →
  key ≠ "" →
  get_dict (mkSearchParams topic "Austin,Texas" key) w = (response, w') →
  error response = None →
  organic_results response = Some (row :: rows) →
  let fetch :=
    exec (get_html_content_from_urls (DataFrame_of_rows (row :: rows)) 3
            "link") w' in
  exec (collect_serp_data_and_extract_text_from_webpages topic) w
  = mkRun (match result fetch with
           | Returned html_documents =>
               Returned (transform_documents html_documents)
           | Raised e => Raised e
           end) (after fetch)
      ([EvGetenv "SERPAPI_API_KEY";
        EvSearch (mkSearchParams topic "Austin,Texas" key)]
       ++ events fetch).
Proof.
  intros Hkey Hne Hsearch Herror Hrows. cbv zeta.
  rewrite collect_run. cbv zeta. rewrite Hkey. cbn.
  assert (String.eqb key "" = false) as -> by by apply String.eqb_neq.
  cbn. rewrite Hsearch. cbn. rewrite Herror, Hrows. done.
Qed.

(** The pipeline returns only when every stage succeeded: the key is
    configured, the response has no error and at least one result, the
    selection and every fetch succeeded; what it returns is the text
    extraction of between one and three fetched documents. *)
Theorem pipeline_returns (topic : string) (w : World)
    (text_documents : list Document) :
  result (exec (collect_serp_data_and_extract_text_from_webpages topic) w)
  = Returned text_documents →
  ∃ key response w' rows html_documents,
    os_getenv "SERPAPI_API_KEY" w = Some key ∧ key ≠ ""
    ∧ get_dict (mkSearchParams topic "Austin,Texas" key) w = (response, w')
    ∧ error response = None
    ∧ organic_results response = Some rows ∧ rows ≠ []
    ∧ result (exec (get_html_content_from_urls (DataFrame_of_rows rows) 3
                      "link") w') = Returned html_documents
    ∧ text_documents = transform_documents html_documents
    ∧ (1 ≤ length html_documents ≤ 3)%nat.
Proof.
  rewrite collect_run. cbv zeta.
  destruct (os_getenv "SERPAPI_API_KEY" w) as [key|] eqn:Hkey; cbn;
    [|done].
  destruct (String.eqb key "") eqn:Hne; cbn; [done|].
  apply String.eqb_neq in Hne.
  destruct (get_dict (mkSearchParams topic "Austin,Texas" key) w)
    as [response w'] eqn:Hsearch. cbn.
  destruct (error response) as [e|] eqn:Herror; cbn; [done|].
  destruct (organic_results response) as [[|row rows]|] eqn:Hrows; cbn;
    [done| |done].
  destruct (result (exec (get_html_content_from_urls _ 3 "link") w'))
    as [html_documents|e] eqn:Hfetch; [|done].
  intros [= <-].
  exists key, response, w', (row :: rows), html_documents.
  destruct (fetched_documents_bounds _ _ _ _ _ Hfetch) as [Hone Hcap].
  split_and!; [done..|lia|lia].
Qed.

End Pipeline.

(** ** Summarizer: null results, parsed fields, failures, progress lines *)

Section SummarizerRuns.
Context `{Outside}.

(** The Summarizer returns null only for a document without chunks: a
    model or parse failure is raised, never turned into a null. *)
Theorem summarizer_null_iff_no_chunks (document : Document)
    (parser : PydanticOutputParser) (llm : ChatOpenAI)
    (text_splitter : TextSplitter) (w : World) :
  result (exec (create_summary_from_text document parser llm
                  text_splitter) w) = Returned None
  ↔ split_documents text_splitter [document] = [].
Proof.
  unfold create_summary_from_text.
  destruct (split_documents text_splitter [document]) as [|first rest].
  - done.
  - cbn. split; [|done]. by repeat ask_world.
Qed.

(** A summary returned by the Summarizer is the parse of the model's
    reply with only the metadata replaced: the summary text, the
    writing style, the key points and the expert opinions are the
    parser's. *)
Theorem summarizer_keeps_parsed_fields (document : Document)
    (parser : PydanticOutputParser) (llm : ChatOpenAI)
    (text_splitter : TextSplitter) (w : World)
    (summary : DocumentSummary) :
  result (exec (create_summary_from_text document parser llm
                  text_splitter) w) = Returned (Some summary) →
  ∃ reply parsed,
    replies (events (exec (create_summary_from_text document parser llm
                             text_splitter) w)) = [inr reply]
    ∧ parse parser reply = inr parsed
    ∧ concise_summary summary = concise_summary parsed
    ∧ writing_style summary = writing_style parsed
    ∧ key_points summary = key_points parsed
    ∧ expert_opinions summary = expert_opinions parsed.
Proof.
  unfold create_summary_from_text.
  destruct (split_documents text_splitter [document]) as [|first rest];
    [done|].
  cbn. destruct (time_time w) as [start_time w1].
  destruct (respond _ w1) as [[e|reply] w2]; cbn; [done|].
  destruct (time_time w2) as [now w3]. cbn.
  destruct (parse parser reply) as [e|parsed] eqn:Hparse; cbn; [done|].
  intros [= <-]. by exists reply, parsed.
Qed.

(** The Summarizer handles no exception of its model invocation or of
    its parser.  Whenever the model invocation raised, that exception is
    what the Summarizer raises; whenever the model replied and
    [parser.parse] raises on the reply, the parser's exception is what
    the Summarizer raises.  In both cases no summary is returned. *)
Theorem summarizer_propagates_failures (document : Document)
    (parser : PydanticOutputParser) (llm : ChatOpenAI)
    (text_splitter : TextSplitter) (w : World) :
  let run :=
    exec (create_summary_from_text document parser llm text_splitter) w in
  (∀ e, inl e ∈ replies (events run) → result run = Raised e)
  ∧ (∀ reply e, inr reply ∈ replies (events run) →
       parse parser reply = inl e → result run = Raised e).
Proof.
  cbv zeta. unfold create_summary_from_text.
  destruct (split_documents text_splitter [document]) as [|first rest].
  { cbn. split; intros; by decompose_list_elem_of. }
  cbn. destruct (time_time w) as [start_time w1].
  destruct (respond _ w1) as [[e'|reply'] w2]; cbn.
  { split.
    - intros e Hin. apply list_elem_of_singleton in Hin. congruence.
    - intros reply e Hin. by apply list_elem_of_singleton in Hin. }
  destruct (time_time w2) as [now w3]. cbn.
  destruct (parse parser reply') as [e'|parsed] eqn:Hparse; cbn.
  - split.
    + intros e Hin. by apply list_elem_of_singleton in Hin.
    + intros reply e Hin Hfails. apply list_elem_of_singleton in Hin.
      congruence.
  - split.
    + intros e Hin. by apply list_elem_of_singleton in Hin.
    + intros reply e Hin Hfails. apply list_elem_of_singleton in Hin.
      congruence.
Qed.

(** The progress lines of a Summarizer run on a document with chunks:
    the start line is printed before the model is invoked; the elapsed
    time, taken between the clock reading just before the invocation
    and the one just after its reply, and the completion line are
    printed when the model replied, also when the reply then fails to
    parse; nothing is printed after a model invocation that raised. *)
Theorem summarizer_progress_lines (document first : Document)
    (rest : list Document) (parser : PydanticOutputParser)
    (llm : ChatOpenAI) (text_splitter : TextSplitter) (w : World) :
  split_documents text_splitter [document] = first :: rest →
  let invocation :=
    ainvoke (mkChatOpenAI 0 "gpt-5") [first]
      (get_format_instructions parser) in
  let started := time_time w in
  let answered := respond invocation started.2 in
  let finished := time_time answered.2 in
  printed (events (exec (create_summary_from_text document parser llm
                           text_splitter) w))
  = "開始生成文檔摘要..."
    :: match answered.1 with
       | inl _ => []
       | inr _ =>
           ["處理時間: " +:+ format_elapsed started.1 finished.1 +:+ " 秒";
            "文檔摘要生成完成！" +:+ nl +:+ "---"]
       end.
Proof.
  intros Hsplit. cbv zeta. unfold create_summary_from_text.
  rewrite Hsplit. cbn.
  destruct (time_time w) as [start_time w1]. cbn.
  destruct (respond _ w1) as [[e|reply] w2]; cbn; [done|].
  destruct (time_time w2) as [now w3]. cbn.
  by destruct (parse parser reply).
Qed.

End SummarizerRuns.

(** ** The event loop: model invocations and results *)

Section GatherRuns.
Context `{Outside} {A D : Type}.
Variable J : D → A → Prop.

Lemma invocations_app (evs evs' : list event) :
  invocations (evs ++ evs') = invocations evs ++ invocations evs'.
Proof. apply omap_app. Qed.

(** A task launches a model invocation only by suspending on it. *)
Lemma advance_invocations (c : coro A) (w : World) :
  invocations (events (advance c w))
  = match result (advance c w) with
    | Pending (Invoke llm prompt) _ => [(llm, prompt)]
    | _ => []
    end.
Proof.
  revert w. induction c as [a|e|name k IH|params k IH|s k IH|k IH|req k IH];
    intros w; cbn; [done..| | | | |].
  - apply IH.
  - destruct (get_dict params w) as [r w']. apply IH.
  - apply IH.
  - destruct (time_time w) as [t w']. apply IH.
  - by destruct req.
Qed.

(** Resuming a task that then finishes launches nothing. *)
Lemma resume_nth_invocations (n : nat) (ds : list D) (ts : list (task A))
    (w : World) :
  Forall2 (task_ok J) ds ts →
  invocations (events (resume_nth n ts w)) = [].
Proof.
  intros Hok. revert n w.
  induction Hok as [|d t ds ts Ht Hok IH]; intros n w; [done|].
  destruct t as [a|e|req k]; cbn; [apply IH..|].
  destruct n as [|n]; cbn; [|apply IH].
  specialize (Ht w). unfold complete in *.
  destruct (respond req w) as [[e|v] w']; cbn in *.
  - by destruct req.
  - assert (invocations (events (advance (k v) w')) = []) as Hadv.
    { rewrite advance_invocations.
      by destruct (result (advance (k v) w')). }
    by destruct req.
Qed.

Lemma event_loop_invocations (fuel : nat) (ds : list D)
    (ts : list (task A)) (w : World) :
  Forall2 (task_ok J) ds ts →
  invocations (events (event_loop fuel ts w)) = [].
Proof.
  revert ts w. induction fuel as [|fuel IH]; intros ts w Hok; cbn.
  - destruct (head (omap failure ts)); [done|]. by case_decide.
  - destruct (head (omap failure ts)); [done|].
    case_decide; [done|]. cbn. rewrite invocations_app.
    rewrite (resume_nth_invocations _ ds) by done.
    apply IH. by apply resume_nth_ok.
Qed.

(** The values the loop returns are those of the inputs, position by
    position, whatever the fuel. *)
Lemma event_loop_sound (fuel : nat) (ds : list D) (ts : list (task A))
    (w : World) (results : list A) :
  Forall2 (task_ok J) ds ts →
  result (event_loop fuel ts w) = Some (Returned results) →
  Forall2 J ds results.
Proof.
  revert ts w. induction fuel as [|fuel IH]; intros ts w Hok; cbn.
  - destruct (head (omap failure ts)) eqn:Hfail; [done|].
    case_decide as Hpend; [|done]. cbn. intros [= <-]. by apply values_ok.
  - destruct (head (omap failure ts)) eqn:Hfail; [done|].
    case_decide as Hpend; cbn.
    + intros [= <-]. by apply values_ok.
    + apply IH. by apply resume_nth_ok.
Qed.

Lemma gather_sound (f : D → coro A) (fuel : nat) (ds : list D) (w : World)
    (results : list A) :
  (∀ d w, task_ok J d (result (advance (f d) w))) →
  result (gather fuel (f <$> ds) w) = Some (Returned results) →
  Forall2 J ds results.
Proof.
  intros Hf. unfold gather. cbn. apply event_loop_sound.
  by apply start_all_ok.
Qed.

Lemma gather_invocations (f : D → coro A) (fuel : nat) (ds : list D)
    (w : World) :
  (∀ d w, task_ok J d (result (advance (f d) w))) →
  invocations (events (gather fuel (f <$> ds) w))
  = invocations (events (start_all (f <$> ds) w)).
Proof.
  intros Hf. unfold gather. cbn. rewrite invocations_app.
  rewrite (event_loop_invocations _ ds) by by apply start_all_ok.
  by rewrite app_nil_r.
Qed.

End GatherRuns.

(** ** Summary Orchestrator: order, invocations, empty batches *)

Section OrchestratorRuns.
Context `{Outside}.

(** The results that are not null are those of the documents that have
    chunks, in the same order. *)
Lemma somes_with_chunks (text_splitter : TextSplitter)
    (text_documents : list Document)
    (results : list (option DocumentSummary)) :
  Forall2 (summary_of text_splitter) text_documents results →
  Forall2 (λ d summary, metadata summary = Some (doc_metadata d))
    (with_chunks text_splitter text_documents) (omap id results).
Proof.
  unfold with_chunks.
  induction 1 as [|d x ds xs [Hnull Hmeta] Hrest IH]; [constructor|].
  rewrite filter_cons. destruct x as [summary|]; cbn.
  - rewrite decide_True by (intros Hnil; by apply Hnull in Hnil).
    constructor; [by apply Hmeta|done].
  - rewrite decide_False by (intros Hne; by apply Hne, Hnull). done.
Qed.

(** The summaries the orchestrator returns stand, one for one and in
    input order, for the documents that have chunks, whatever the order
    in which the model invocations completed; each carries its
    document's metadata, and there is at least one. *)
Theorem summary_orchestrator_order (fuel : nat)
    (text_documents : list Document) (parser : PydanticOutputParser)
    (llm : ChatOpenAI) (text_splitter : TextSplitter) (w : World)
    (summaries : list DocumentSummary) :
  result (create_all_summaries fuel text_documents parser llm
            text_splitter w) = Some (Returned summaries) →
  Forall2 (λ d summary, metadata summary = Some (doc_metadata d))
    (with_chunks text_splitter text_documents) summaries
  ∧ summaries ≠ [].
Proof.
  unfold create_all_summaries.
  pose proof (gather_sound (summary_of text_splitter)
    (λ document,
       create_summary_from_text document parser llm text_splitter)
    fuel text_documents w) as Hg.
  set (g := gather fuel _ w) in *. clearbody g. cbn.
  destruct (result g) as [[results|e]|]; [|done..].
  case_decide as Hzero; [done|]. cbn. intros [= <-]. split.
  - apply somes_with_chunks, Hg; [|done].
    apply summarizer_task_ok.
  - intros Hnil. by rewrite Hnil in Hzero.
Qed.

(** The first step of a Summarizer task launches the invocation of its
    document, if the document has chunks. *)
Lemma first_step_invocations (parser : PydanticOutputParser)
    (llm : ChatOpenAI) (text_splitter : TextSplitter) (d : Document)
    (w : World) :
  invocations
    (events (advance (create_summary_from_text d parser llm
                        text_splitter) w))
  = invocation_for parser text_splitter <$> with_chunks text_splitter [d].
Proof.
  unfold with_chunks. rewrite filter_cons, filter_nil.
  destruct (split_documents text_splitter [d]) as [|first rest] eqn:Hsplit.
  - rewrite decide_False by (by intros Hne).
    unfold create_summary_from_text. by rewrite Hsplit.
  - rewrite decide_True by done.
    rewrite (summarizer_task_events _ _ _ _ _ _ _ Hsplit).
    cbn. unfold invocation_for. by rewrite Hsplit.
Qed.

(** The first steps of the Summarizer tasks launch, in input order, the
    invocation of each document that has chunks. *)
Lemma start_all_invocations (parser : PydanticOutputParser)
    (llm : ChatOpenAI) (text_splitter : TextSplitter)
    (text_documents : list Document) (w : World) :
  invocations
    (events (start_all
               ((λ document,
                   create_summary_from_text document parser llm
                     text_splitter) <$> text_documents) w))
  = invocation_for parser text_splitter
      <$> with_chunks text_splitter text_documents.
Proof.
  revert w. induction text_documents as [|d ds IH]; intros w; [done|].
  rewrite fmap_cons.
  change (events (start_all (?c :: ?cs) w))
    with (events (advance c w)
          ++ events (start_all cs (after (advance c w)))).
  rewrite invocations_app, IH, first_step_invocations.
  rewrite <- fmap_app. f_equal.
  unfold with_chunks. by rewrite <- filter_app.
Qed.

(** The model invocations of a batch are exactly one for each document
    that has chunks, in input order, each on the fixed model with the
    template filled with that document's first chunk: no document is
    sent twice, a document without chunks is never sent, and this holds
    whether the batch returns, raises or is cut short. *)
Theorem summary_orchestrator_invocations (fuel : nat)
    (text_documents : list Document) (parser : PydanticOutputParser)
    (llm : ChatOpenAI) (text_splitter : TextSplitter) (w : World) :
  invocations
    (events (create_all_summaries fuel text_documents parser llm
               text_splitter w))
  = invocation_for parser text_splitter
      <$> with_chunks text_splitter text_documents.
Proof.
  unfold create_all_summaries.
  pose proof (gather_invocations (summary_of text_splitter)
    (λ document,
       create_summary_from_text document parser llm text_splitter)
    fuel text_documents w (summarizer_task_ok parser llm text_splitter))
    as Hg.
  rewrite start_all_invocations in Hg.
  set (g := gather fuel _ w) in *. clearbody g. cbn.
  destruct (result g) as [[results|e]|]; cbn; [|done..].
  case_decide; cbn; [done|].
  by rewrite invocations_app, Hg, app_nil_r.
Qed.

(** The first steps of a batch in which no document has chunks: every
    task is finished with a null, and nothing happened. *)
Lemma start_all_no_chunks (parser : PydanticOutputParser)
    (llm : ChatOpenAI) (text_splitter : TextSplitter)
    (text_documents : list Document) (w : World) :
  with_chunks text_splitter text_documents = [] →
  start_all
    ((λ document,
        create_summary_from_text document parser llm text_splitter)
       <$> text_documents) w
  = mkRun (replicate (length text_documents) (Finished None)) w [].
Proof.
  unfold with_chunks. revert w.
  induction text_documents as [|d ds IH]; intros w Hnone; [done|].
  rewrite filter_cons in Hnone.
  destruct (decide (split_documents text_splitter [d] ≠ [])) as [|Hnil];
    [done|].
  apply dec_stable in Hnil. rewrite fmap_cons.
  assert (create_summary_from_text d parser llm text_splitter = Ret None)
    as -> by (unfold create_summary_from_text; by rewrite Hnil).
  cbn. by rewrite IH.
Qed.

Lemma event_loop_all_null (fuel n : nat) (w : World) :
  event_loop fuel (replicate n (Finished (None : option DocumentSummary))) w
  = mkRun (Some (Returned (replicate n None))) w [].
Proof.
  set (ts := replicate n (Finished (None : option DocumentSummary))).
  assert (omap failure ts = [] ∧ pending ts = 0%nat
          ∧ omap value ts = replicate n None) as (Hfail & Hpend & Hval).
  { subst ts. induction n as [|n (IHf & IHp & IHv)]; [done|].
    cbn [replicate]. rewrite pending_cons. cbn.
    split_and!; [done..|by f_equal]. }
  destruct fuel; cbn; rewrite Hfail, Hpend, Hval; done.
Qed.

(** A batch in which no document has chunks, the empty batch among
    them, fails with NoSummariesCreatedError whatever the fuel, without
    a model invocation: the count line is all that happens. *)
Theorem summary_orchestrator_nothing_to_do (fuel : nat)
    (text_documents : list Document) (parser : PydanticOutputParser)
    (llm : ChatOpenAI) (text_splitter : TextSplitter) (w : World) :
  with_chunks text_splitter text_documents = [] →
  create_all_summaries fuel text_documents parser llm text_splitter w
  = mkRun (Some (Raised NoSummariesCreatedError)) w
      [EvPrint ("開始並行處理 " +:+ pretty (length text_documents)
                +:+ " 個文檔的摘要生成...")].
Proof.
  intros Hnone. unfold create_all_summaries, gather.
  rewrite (start_all_no_chunks _ _ _ _ _ Hnone). cbn.
  rewrite event_loop_all_null, length_fmap. cbn.
  assert (omap id (replicate (length text_documents)
                     (None : option DocumentSummary)) = []) as ->
    by (induction (length text_documents); [done|by cbn]).
  done.
Qed.

Lemma summarizer_llm_dead (document : Document)
    (parser : PydanticOutputParser) (llm1 llm2 : ChatOpenAI)
    (text_splitter : TextSplitter) :
  create_summary_from_text document parser llm1 text_splitter
  = create_summary_from_text document parser llm2 text_splitter.
Proof.
  unfold create_summary_from_text.
  by destruct (split_documents text_splitter [document]).
Qed.

(** The [llm] argument of the orchestrator is dead too: two batches
    that differ only in it run alike, event for event. *)
Theorem summary_orchestrator_ignores_llm (fuel : nat)
    (text_documents : list Document) (parser : PydanticOutputParser)
    (llm1 llm2 : ChatOpenAI) (text_splitter : TextSplitter) (w : World) :
  create_all_summaries fuel text_documents parser llm1 text_splitter w
  = create_all_summaries fuel text_documents parser llm2 text_splitter w.
Proof.
  unfold create_all_summaries.
  assert ((λ document,
             create_summary_from_text document parser llm1 text_splitter)
            <$> text_documents
          = (λ document,
               create_summary_from_text document parser llm2 text_splitter)
              <$> text_documents) as ->; [|done].
  apply list_fmap_ext. intros i d _. apply summarizer_llm_dead.
Qed.

End OrchestratorRuns.

(** ** Summary Orchestrator: one failure aborts the batch *)

Section LoudFailures.
Context `{Outside} {A : Type}.
Variable P : event → exn → Prop.

(** Resuming the [n]-th suspended task changes that task alone, and the
    events are those of its completion. *)
Lemma resume_nth_spec (n : nat) (ts : list (task A)) (w : World) :
  (n < pending ts)%nat →
  ∃ pre req k suf,
    ts = pre ++ Pending req k :: suf
    ∧ result (resume_nth n ts w) = pre ++ result (complete req k w) :: suf
    ∧ after (resume_nth n ts w) = after (complete req k w)
    ∧ events (resume_nth n ts w) = events (complete req k w).
Proof.
  revert n. induction ts as [|t ts IH]; intros n Hn.
  { unfold pending in Hn. cbn in Hn. lia. }
  rewrite pending_cons in Hn. destruct t as [a|e|req k]; cbn in Hn.
  - destruct (IH n Hn) as (pre & req & k & suf & -> & Hres & Haft & Hev).
    exists (Finished a :: pre), req, k, suf. cbn.
    by rewrite Hres, Haft, Hev.
  - destruct (IH n Hn) as (pre & req & k & suf & -> & Hres & Haft & Hev).
    exists (Failed e :: pre), req, k, suf. cbn.
    by rewrite Hres, Haft, Hev.
  - destruct n as [|n].
    + by exists [], req, k, ts.
    + destruct (IH n ltac:(lia))
        as (pre & req' & k' & suf & -> & Hres & Haft & Hev).
      exists (Pending req k :: pre), req', k', suf. cbn.
      by rewrite Hres, Haft, Hev.
Qed.



End LoudFailures.

Section OrchestratorFailures.
Context `{Outside}.




End OrchestratorFailures.

(** ** Summary Orchestrator: a batch served without failure *)

Section HealthyBatch.
Context `{Outside}.

Lemma pending_app {A : Type} (ts ts' : list (task A)) :
  pending (ts ++ ts') = (pending ts + pending ts')%nat.
Proof. unfold pending. by rewrite filter_app, length_app. Qed.

Lemma settled_no_failure {A : Type} (ts : list (task A)) :
  Forall settles_well ts → omap failure ts = [].
Proof.
  induction 1 as [|t ts Ht Hts IH]; [done|].
  destruct t; cbn in *; done.
Qed.

Lemma settled_values {A : Type} (ts : list (task A)) :
  Forall settles_well ts → pending ts = 0%nat →
  length (omap value ts) = length ts.
Proof.
  induction 1 as [|t ts Ht Hts IH]; [done|].
  rewrite pending_cons. destruct t; cbn in *; [|done|lia].
  intros Hpend. f_equal. by apply IH.
Qed.

(** With fuel for every suspended task, a loop over tasks that settle
    well returns a value for each of them. *)
Lemma event_loop_returns {A : Type} (fuel : nat) (ts : list (task A))
    (w : World) :
  Forall settles_well ts →
  (pending ts ≤ fuel)%nat →
  ∃ results,
    result (event_loop fuel ts w) = Some (Returned results)
    ∧ length results = length ts.
Proof.
  revert ts w. induction fuel as [|fuel IH]; intros ts w Hwell Hfuel; cbn;
    rewrite (settled_no_failure ts Hwell); cbn.
  { rewrite decide_True by lia. eexists. split; [done|].
    apply settled_values; [done|lia]. }
  case_decide as Hpend; cbn.
  { eexists. split; [done|]. by apply settled_values. }
  set (n := (next_ready w (pending ts) `mod` pending ts)%nat).
  assert (n < pending ts)%nat as Hn by by apply Nat.mod_upper_bound.
  destruct (resume_nth_spec n ts w Hn)
    as (pre & req & k & suf & -> & Hres & Haft & Hev).
  rewrite Hres, Haft.
  apply Forall_app in Hwell as [Hpre Hsuf].
  apply Forall_cons in Hsuf as [Hk Hsuf].
  specialize (Hk w).
  destruct (result (complete req k w)) as [a| |]; [|done..].
  destruct (IH (pre ++ Finished a :: suf) (after (complete req k w)))
    as (results & Hloop & Hlen).
  - apply Forall_app. split; [done|]. by constructor.
  - rewrite pending_app, pending_cons in *. cbn in *. lia.
  - exists results. split; [done|].
    rewrite Hlen, !length_app. done.
Qed.

(** When the model answers every invocation and the parser accepts
    every reply, the first step of a Summarizer task settles well. *)
Lemma summarizer_settles_well (parser : PydanticOutputParser)
    (llm : ChatOpenAI) (text_splitter : TextSplitter)
    (document : Document) (w : World) :
  (∀ llm prompt w, ∃ reply w',
     respond (Invoke llm prompt) w = (inr reply, w')) →
  (∀ reply, ∃ parsed, parse parser reply = inr parsed) →
  settles_well
    (result (advance (create_summary_from_text document parser llm
                        text_splitter) w)).
Proof.
  intros Hmodel Hparse. unfold create_summary_from_text.
  destruct (split_documents text_splitter [document]) as [|first rest];
    cbn; [done|].
  destruct (time_time w) as [start_time w1]. cbn.
  intros w2. unfold complete, ainvoke.
  destruct (Hmodel (mkChatOpenAI 0 "gpt-5")
              (prompt_template (stuff_documents [first])
                 (get_format_instructions parser)) w2)
    as (reply & w3 & ->). cbn.
  destruct (time_time w3) as [now w4]. cbn.
  by destruct (Hparse reply) as [parsed ->].
Qed.

Lemma start_all_settle_well (parser : PydanticOutputParser)
    (llm : ChatOpenAI) (text_splitter : TextSplitter)
    (text_documents : list Document) (w : World) :
  (∀ llm prompt w, ∃ reply w',
     respond (Invoke llm prompt) w = (inr reply, w')) →
  (∀ reply, ∃ parsed, parse parser reply = inr parsed) →
  Forall settles_well
    (result (start_all
               ((λ document,
                   create_summary_from_text document parser llm
                     text_splitter) <$> text_documents) w)).
Proof.
  intros Hmodel Hparse. revert w.
  induction text_documents as [|d ds IH]; intros w; [constructor|].
  rewrite fmap_cons. cbn. constructor; [|apply IH].
  by apply summarizer_settles_well.
Qed.

(** A batch served without failure: when the model answers every
    invocation, the parser accepts every reply, and some document has
    chunks, the orchestrator, given fuel for one completion per
    document, returns one summary for each document that has chunks. *)
Theorem summary_orchestrator_succeeds (fuel : nat)
    (text_documents : list Document) (parser : PydanticOutputParser)
    (llm : ChatOpenAI) (text_splitter : TextSplitter) (w : World) :
  (∀ llm prompt w, ∃ reply w',
     respond (Invoke llm prompt) w = (inr reply, w')) →
  (∀ reply, ∃ parsed, parse parser reply = inr parsed) →
  (length text_documents ≤ fuel)%nat →
  with_chunks text_splitter text_documents ≠ [] →
  ∃ summaries,
    result (create_all_summaries fuel text_documents parser llm
              text_splitter w) = Some (Returned summaries)
    ∧ length summaries
      = length (with_chunks text_splitter text_documents).
Proof.
  intros Hmodel Hparse Hfuel Hsome.
  pose proof (gather_sound (summary_of text_splitter)
    (λ document,
       create_summary_from_text document parser llm text_splitter)
    fuel text_documents w) as Hsound.
  pose proof (start_all_settle_well parser llm text_splitter
                text_documents w Hmodel Hparse) as Hwell.
  pose proof (start_all_ok (summary_of text_splitter)
    (λ document,
       create_summary_from_text document parser llm text_splitter)
    text_documents w (summarizer_task_ok parser llm text_splitter))
    as Hok.
  apply Forall2_length in Hok.
  unfold create_all_summaries. unfold gather in *.
  set (started := start_all _ w) in *. clearbody started.
  destruct (event_loop_returns fuel (result started) (after started) Hwell)
    as (results & Hloop & _).
  { pose proof (pending_le_length (result started)). lia. }
  cbn in Hsound. cbn. rewrite Hloop in *.
  specialize (Hsound results (summarizer_task_ok parser llm text_splitter)
                eq_refl).
  apply somes_with_chunks, Forall2_length in Hsound.
  case_decide as Hzero; cbn.
  - destruct (with_chunks text_splitter text_documents); [done|].
    cbn in Hsound. lia.
  - by exists (omap id results).
Qed.

End HealthyBatch.

(** ** The properties on the concrete platform and world *)

Import Demo.

Lemma example_rows_link :
  example_rows !! "link" = Some [""; "http://a"; "http://a"; "http://b"].
Proof. done. Qed.

(** The claim C1 as the specification words it fails on the
    specification's own input: no platform makes the URL Selector return
    the set {"http://a", "http://b"} for N = 3. *)
Lemma url_selector_example_refuted :
  ¬ ∃ (platform : Platform) (urls : list string),
      select_urls example_rows 3 "link" = inr urls
      ∧ (list_to_set urls : gset string) = {[ "http://a"; "http://b" ]}.
Proof.
  intros (platform & urls & Hsel & Hset).
  rewrite (select_urls_first_three _ _ example_rows_link) in Hsel.
  injection Hsel as <-.
  assert ("http://b" ∈ (list_to_set ["http://a"] : gset string)) as Hb.
  { rewrite Hset. apply elem_of_union. right. by apply elem_of_singleton. }
  apply elem_of_list_to_set, list_elem_of_singleton in Hb. done.
Qed.

(** C1 on the DataFrame of the specification's example. *)
Lemma url_selector_example_witness :
  example_rows !! "link" = Some [""; "http://a"; "http://a"; "http://b"]
  ∧ select_urls example_rows 3 "link" = inr ["http://a"]
  ∧ ∃ urls, select_urls example_rows 4 "link" = inr urls
      ∧ (list_to_set urls : gset string) = {[ "http://a"; "http://b" ]}.
Proof.
  split; [reflexivity|].
  apply (url_selector_example example_rows "link"). reflexivity.
Defined.

(** C6 on the same DataFrame with the default cap, and on three rows
    with the cap -1. *)
Lemma url_selector_invariant_witness :
  select_urls example_rows 3 "link" = inr ["http://a"]
  ∧ NoDup ["http://a"] ∧ ("" ∉ ["http://a"])
  ∧ (1 ≤ length ["http://a"])%nat
  ∧ Z.of_nat (length ["http://a"]) ≤ 3
  ∧ select_urls three_rows (-1) "link" = inr ["http://a"; "http://b"]
  ∧ ∃ column, three_rows !! "link" = Some column
      ∧ -1 < Z.of_nat (length ["http://a"; "http://b"])
           ≤ Z.of_nat (length column) + -1.
Proof.
  assert (select_urls example_rows 3 "link" = inr ["http://a"]) as Hsel
    by reflexivity.
  assert (select_urls three_rows (-1) "link"
          = inr ["http://a"; "http://b"]) as Hsel' by reflexivity.
  split; [exact Hsel|].
  destruct (proj1 (url_selector_invariant example_rows 3 "link")
              ["http://a"] Hsel) as (_ & Hnodup & Hempty & Hone & Hcap & _).
  split_and!; [done..|by apply Hcap|exact Hsel'|].
  destruct (proj1 (url_selector_invariant three_rows (-1) "link")
              ["http://a"; "http://b"] Hsel') as (_ & _ & _ & _ & _ & Hneg).
  apply Hneg. lia.
Defined.

(** The claim C6 as the specification words it fails for a negative cap:
    [number_of_urls = -1] is accepted, [values[:-1]] drops the last row
    only, and on a column of three distinct URLs two are selected,
    whatever the order of [list(set(...))]: no platform keeps the number
    of selected URLs between 1 and N. *)
Lemma url_selector_cap_exceeded :
  ¬ ∃ platform : Platform,
      ∀ urls, select_urls three_rows (-1) "link" = inr urls →
              (1 ≤ length urls)%nat ∧ Z.of_nat (length urls) ≤ -1.
Proof.
  intros (platform & Hbound).
  assert (three_rows !! "link"
          = Some ["http://a"; "http://b"; "http://c"]) as Hcol by done.
  pose proof (select_urls_lookup _ (-1) _ _ Hcol) as Hsel.
  cbv zeta in Hsel. case_decide as Hlen.
  - apply length_zero_iff_nil in Hlen. rewrite list_of_set_nil in Hlen.
    vm_compute in Hlen. discriminate Hlen.
  - destruct (Hbound _ Hsel). lia.
Qed.

(** The claim C2 as the specification words it fails on two URLs: the
    second fetch is launched only after the first has completed, and the
    largest number of fetches in flight is one, not the number of
    URLs. *)
Lemma page_fetcher_not_concurrent :
  events (exec (ChromiumLoader.load ["http://a"; "http://b"]) world0)
  = [EvStart (Scrape "http://a");
     EvEnd (Scrape "http://a") (inr "<html>http://a</html>");
     EvStart (Scrape "http://b");
     EvEnd (Scrape "http://b") (inr "<html>http://b</html>")]
  ∧ peak_in_flight 0
      (events (exec (ChromiumLoader.load ["http://a"; "http://b"]) world0))
    ≠ length ["http://a"; "http://b"].
Proof. split; [reflexivity|]. vm_compute. lia. Qed.

(** C5 on two URLs: both pages open, and the second page does not. *)
Lemma page_fetcher_all_or_nothing_witness :
  (∃ docs,
     result (exec (ChromiumLoader.load ["http://a"; "http://b"]) world0)
       = Returned docs
     ∧ length docs = 2%nat)
  ∧ result (exec (ChromiumLoader.load ["http://a"; "http://b"])
              world_offline)
    = Raised (ExternalError "cannot open http://b").
Proof.
  split.
  - destruct (proj1 (page_fetcher_all_or_nothing
                       ["http://a"; "http://b"] world0))
      as (docs & Hres & Hlen & _).
    + intros url reply Hin. vm_compute in Hin.
      apply elem_of_cons in Hin as [[= _ ->]|Hin]; [by eexists|].
      apply list_elem_of_singleton in Hin as [= _ ->]. by eexists.
    + exists docs. by split.
  - apply (proj1 (proj2 (page_fetcher_all_or_nothing
                           ["http://a"; "http://b"] world_offline))
             "http://b").
    vm_compute. right. left.
Defined.

(** The claim C7 as the specification words it fails on a response that
    has an [error] field and no [organic_results]: the Search Client
    fails with SearchProviderError, not with NoResultsError. *)
Lemma search_client_error_first :
  organic_results (answer world_rejected) = None
  ∧ result (exec (collect_serp_data_and_extract_text_from_webpages "rocq")
              world_rejected)
    = Raised (SearchProviderError "Invalid API key.")
  ∧ SearchProviderError "Invalid API key." ≠ NoResultsError.
Proof. split_and!; [reflexivity..|]. intros [=]. Qed.

(** C7 on the response of a provider that rejects the key. *)
Lemma search_client_errors_witness :
  os_getenv "SERPAPI_API_KEY" world_rejected = Some "secret"
  ∧ "secret" ≠ ""
  ∧ exec (collect_serp_data_and_extract_text_from_webpages "rocq")
      world_rejected
    = mkRun (Raised (SearchProviderError "Invalid API key."))
        (tick world_rejected)
        [EvGetenv "SERPAPI_API_KEY";
         EvSearch (mkSearchParams "rocq" "Austin,Texas" "secret")].
Proof.
  split; [reflexivity|]. split; [intros [=]|].
  apply (proj1 (search_client_errors "rocq" "secret" world_rejected
                  (tick world_rejected) (answer world_rejected)
                  eq_refl ltac:(intros [=]) eq_refl)).
  reflexivity.
Defined.

(** C8 on the empty document. *)
Lemma summarizer_no_chunks_witness :
  split_documents splitter [blank] = []
  ∧ create_summary_from_text blank parser (mkChatOpenAI 1 "gpt-4") splitter
    = Ret None
  ∧ exec (create_summary_from_text blank parser (mkChatOpenAI 1 "gpt-4")
            splitter) world0
    = mkRun (Returned None) world0 []
  ∧ advance (create_summary_from_text blank parser (mkChatOpenAI 1 "gpt-4")
               splitter) world0
    = mkRun (Finished None) world0 [].
Proof.
  split; [reflexivity|].
  apply (summarizer_no_chunks blank parser (mkChatOpenAI 1 "gpt-4")
           splitter world0).
  reflexivity.
Defined.

(** C9 on a document split in two chunks: the text "Rocq" of the first
    chunk occurs in the prompt. *)
Lemma summarizer_first_chunk_only_witness :
  split_documents splitter [article]
  = [mkDocument "Rocq" (doc_metadata article);
     mkDocument " is a proof assistant." (doc_metadata article)]
  ∧ invocations
      (events (exec (create_summary_from_text article parser
                       (mkChatOpenAI 1 "gpt-4") splitter) world0))
    = [(mkChatOpenAI 0 "gpt-5", prompt_template "Rocq" "Reply in JSON.")]
  ∧ ∃ before after : string,
      invocations
        (events (exec (create_summary_from_text article parser
                         (mkChatOpenAI 1 "gpt-4") splitter) world0))
      = [(mkChatOpenAI 0 "gpt-5", before +:+ "Rocq" +:+ after)].
Proof.
  split; [reflexivity|].
  destruct (summarizer_first_chunk_only article
              (mkDocument "Rocq" (doc_metadata article))
              [mkDocument " is a proof assistant." (doc_metadata article)]
              parser (mkChatOpenAI 1 "gpt-4") splitter world0 eq_refl)
    as (Hexec & _ & (before & after & _ & Hembeds) & _).
  split; [exact Hexec|]. exists before, after. exact Hembeds.
Defined.

(** C4 on a parser that fills [metadata] from the reply. *)
Lemma summarizer_metadata_witness :
  parse parser "reply"
  = inr (mkDocumentSummary "reply" "plain" ["reply"] None
           (Some {[ "source" := "model" ]}))
  ∧ result (exec (create_summary_from_text article parser
                    (mkChatOpenAI 1 "gpt-4") splitter) world0)
    = Returned (Some (mkDocumentSummary "reply" "plain" ["reply"] None
                        (Some {[ "source" := "http://a" ]})))
  ∧ Some ({[ "source" := "http://a" ]} : gmap string string)
    = Some (doc_metadata article).
Proof.
  split; [reflexivity|]. split; [reflexivity|].
  apply (summarizer_metadata article parser (mkChatOpenAI 1 "gpt-4")
           splitter world0
           (mkDocumentSummary "reply" "plain" ["reply"] None
              (Some {[ "source" := "http://a" ]}))).
  reflexivity.
Defined.

(** C3 on three documents, the second of them empty. *)
Lemma summary_orchestrator_count_witness :
  (length [article; blank; article] ≤ 3)%nat
  ∧ ∃ summaries,
      result (create_all_summaries 3 [article; blank; article] parser
                (mkChatOpenAI 1 "gpt-4") splitter world0)
      = Some (Returned summaries)
      ∧ length summaries = 2%nat.
Proof.
  assert (length [article; blank; article] ≤ 3)%nat as Hfuel
    by (vm_compute; lia).
  split; [exact Hfuel|].
  pose proof (summary_orchestrator_count 3 [article; blank; article]
                parser (mkChatOpenAI 1 "gpt-4") splitter world0 Hfuel)
    as Hcount.
  cbv zeta in Hcount.
  destruct (result (gather 3 _ world0)) as [[results|e]|] eqn:Hgather;
    [|discriminate Hgather..].
  destruct Hcount as (Hlen & _ & Hsome & _).
  assert (nulls results = 1%nat) as Hnulls.
  { vm_compute in Hgather. injection Hgather as <-. reflexivity. }
  destruct Hsome as (summaries & Hres & _ & Hcount);
    [rewrite Hnulls; cbn; lia|].
  exists summaries. split; [exact Hres|]. rewrite Hcount, Hnulls.
  reflexivity.
Defined.

(** The Search Client in a world with no API key. *)
Lemma search_client_needs_key_witness :
  truthy (os_getenv "SERPAPI_API_KEY" world_unconfigured) = false
  ∧ exec (collect_serp_data_and_extract_text_from_webpages "rocq")
      world_unconfigured
    = mkRun (Raised ConfigurationError) world_unconfigured
        [EvGetenv "SERPAPI_API_KEY"].
Proof.
  split; [reflexivity|].
  apply (search_client_needs_key "rocq" world_unconfigured). reflexivity.
Defined.

(** Two of the three documents have chunks, and their two model
    invocations are in flight together; the two page fetches of the
    loader never are. *)
Example fan_out_of_orchestrator_and_loader :
  peak_in_flight 0
    (events (create_all_summaries 3 [article; blank; article] parser
               (mkChatOpenAI 1 "gpt-4") splitter world0)) = 2%nat
  ∧ peak_in_flight 0
      (events (exec (ChromiumLoader.load ["http://a"; "http://b"]) world0))
    = 1%nat.
Proof. split; vm_compute; reflexivity. Qed.

(** ** Further runs on the concrete worlds *)

(** The selection on the DataFrame of the example, with a cap of two. *)
Lemma url_selector_selects_witness :
  example_rows !! "link" = Some [""; "http://a"; "http://a"; "http://b"]
  ∧ match select_urls example_rows 2 "link" with
    | inr urls =>
        NoDup urls ∧ urls ≠ []
        ∧ ∀ url, url ∈ urls
                 ↔ url ∈ slice_to 2 [""; "http://a"; "http://a"; "http://b"]
                   ∧ url ≠ ""
    | inl e =>
        e = NoValidURLsError
        ∧ ∀ url, url ∈ slice_to 2 [""; "http://a"; "http://a"; "http://b"] →
                 url = ""
    end.
Proof.
  split; [reflexivity|].
  apply (url_selector_selects example_rows 2 "link"). reflexivity.
Defined.

(** The edges of the cap on the same DataFrame. *)
Lemma url_selector_cap_edges_witness :
  example_rows !! "link" = Some [""; "http://a"; "http://a"; "http://b"]
  ∧ select_urls example_rows 0 "link" = inl NoValidURLsError
  ∧ select_urls example_rows (-1) "link" = select_urls example_rows 3 "link".
Proof.
  split; [reflexivity|].
  destruct (url_selector_cap_edges example_rows "link"
              [""; "http://a"; "http://a"; "http://b"] eq_refl)
    as (Hzero & _ & Hneg).
  split; [exact Hzero|]. apply (Hneg (-1)). lia.
Defined.

(** The loader when the second of three pages cannot be opened. *)
Lemma page_fetcher_fails_fast_witness :
  result (exec (ChromiumLoader.load ["http://a"; "http://b"; "http://c"])
            world_offline)
  = Raised (ExternalError "cannot open http://b")
  ∧ ∃ n url texts,
      ["http://a"; "http://b"; "http://c"] !! n = Some url
      ∧ length texts = n
      ∧ scrapes (events (exec (ChromiumLoader.load
                                 ["http://a"; "http://b"; "http://c"])
                           world_offline))
        = zip (take n ["http://a"; "http://b"; "http://c"]) (inr <$> texts)
          ++ [(url, inl (ExternalError "cannot open http://b"))]
      ∧ (scrapes (events (exec (ChromiumLoader.load
                                  ["http://a"; "http://b"; "http://c"])
                            world_offline))).*1
        = take (S n) ["http://a"; "http://b"; "http://c"].
Proof.
  split; [reflexivity|].
  apply (page_fetcher_fails_fast ["http://a"; "http://b"; "http://c"]
           world_offline (ExternalError "cannot open http://b")).
  reflexivity.
Defined.

(** The documents fetched for the DataFrame of the example. *)
Lemma fetched_documents_witness :
  result (exec (get_html_content_from_urls example_rows 4 "link") world0)
  = Returned [Document_of_text "<html>http://a</html>";
              Document_of_text "<html>http://b</html>"]
  ∧ ∃ urls,
      select_urls example_rows 4 "link" = inr urls
      ∧ length [Document_of_text "<html>http://a</html>";
                Document_of_text "<html>http://b</html>"] = length urls
      ∧ scrapes (events (exec (get_html_content_from_urls example_rows 4
                                 "link") world0))
        = zip urls
            (inr ∘ page_content
               <$> [Document_of_text "<html>http://a</html>";
                    Document_of_text "<html>http://b</html>"])
      ∧ Forall (λ d, doc_metadata d = ∅)
          [Document_of_text "<html>http://a</html>";
           Document_of_text "<html>http://b</html>"]
      ∧ (1 ≤ length [Document_of_text "<html>http://a</html>";
                     Document_of_text "<html>http://b</html>"])%nat
      ∧ (0 ≤ 4 →
         Z.of_nat (length [Document_of_text "<html>http://a</html>";
                           Document_of_text "<html>http://b</html>"]) ≤ 4).
Proof.
  split; [reflexivity|].
  apply (fetched_documents example_rows 4 "link" world0). reflexivity.
Defined.

(** The pipeline in the world where both pages open, and in the world
    where the second page does not. *)
Lemma pipeline_after_search_witness :
  os_getenv "SERPAPI_API_KEY" world_offline = Some "secret"
  ∧ "secret" ≠ ""
  ∧ result (exec (collect_serp_data_and_extract_text_from_webpages "rocq")
              world_offline)
    = Raised (ExternalError "cannot open http://b").
Proof.
  split; [reflexivity|]. split; [intros [=]|].
  rewrite (pipeline_after_search "rocq" "secret" world_offline
             (tick world_offline) (answer world_offline)
             "http://a" ["http://b"]
             eq_refl ltac:(intros [=]) eq_refl eq_refl eq_refl).
  reflexivity.
Defined.

Lemma pipeline_returns_witness :
  result (exec (collect_serp_data_and_extract_text_from_webpages "rocq")
            world0)
  = Returned [Document_of_text "<html>http://a</html>";
              Document_of_text "<html>http://b</html>"]
  ∧ ∃ key response w' rows html_documents,
      os_getenv "SERPAPI_API_KEY" world0 = Some key ∧ key ≠ ""
      ∧ get_dict (mkSearchParams "rocq" "Austin,Texas" key) world0
        = (response, w')
      ∧ error response = None
      ∧ organic_results response = Some rows ∧ rows ≠ []
      ∧ result (exec (get_html_content_from_urls (DataFrame_of_rows rows)
                        3 "link") w') = Returned html_documents
      ∧ [Document_of_text "<html>http://a</html>";
         Document_of_text "<html>http://b</html>"]
        = transform_documents html_documents
      ∧ (1 ≤ length html_documents ≤ 3)%nat.
Proof.
  split; [reflexivity|].
  apply (pipeline_returns "rocq" world0). reflexivity.
Defined.

(** The Summarizer on the article: the fields of the parsed reply are
    kept. *)
Lemma summarizer_keeps_parsed_fields_witness :
  result (exec (create_summary_from_text article parser
                  (mkChatOpenAI 1 "gpt-4") splitter) world0)
  = Returned (Some (mkDocumentSummary "reply" "plain" ["reply"] None
                      (Some {[ "source" := "http://a" ]})))
  ∧ ∃ reply parsed,
      replies (events (exec (create_summary_from_text article parser
                               (mkChatOpenAI 1 "gpt-4") splitter) world0))
      = [inr reply]
      ∧ parse parser reply = inr parsed
      ∧ "reply" = concise_summary parsed
      ∧ "plain" = writing_style parsed
      ∧ ["reply"] = key_points parsed
      ∧ None = expert_opinions parsed.
Proof.
  split; [reflexivity|].
  apply (summarizer_keeps_parsed_fields article parser
           (mkChatOpenAI 1 "gpt-4") splitter world0
           (mkDocumentSummary "reply" "plain" ["reply"] None
              (Some {[ "source" := "http://a" ]}))).
  reflexivity.
Defined.

(** The Summarizer with a model that raises, and with a parser that
    rejects the reply. *)
Lemma summarizer_propagates_failures_witness :
  replies (events (exec (create_summary_from_text Faults.oops parser
                           (mkChatOpenAI 1 "gpt-4") splitter)
                     Faults.start))
  = [inl (ExternalError "rate limit")]
  ∧ result (exec (create_summary_from_text Faults.oops parser
                    (mkChatOpenAI 1 "gpt-4") splitter) Faults.start)
    = Raised (ExternalError "rate limit")
  ∧ replies (events (exec (create_summary_from_text article
                             Faults.strict_parser
                             (mkChatOpenAI 1 "gpt-4") splitter) world0))
    = [inr "reply"]
  ∧ result (exec (create_summary_from_text article Faults.strict_parser
                    (mkChatOpenAI 1 "gpt-4") splitter) world0)
    = Raised (ExternalError "OutputParserException").
Proof.
  split; [reflexivity|]. split; [|split; [reflexivity|]].
  - apply (proj1 (summarizer_propagates_failures Faults.oops parser
                    (mkChatOpenAI 1 "gpt-4") splitter Faults.start)).
    vm_compute. left.
  - apply (proj2 (summarizer_propagates_failures article
                    Faults.strict_parser (mkChatOpenAI 1 "gpt-4") splitter
                    world0) "reply").
    + vm_compute. left.
    + reflexivity.
Defined.

(** The progress lines of a Summarizer run on the article. *)
Lemma summarizer_progress_lines_witness :
  split_documents splitter [article]
  = [mkDocument "Rocq" (doc_metadata article);
     mkDocument " is a proof assistant." (doc_metadata article)]
  ∧ printed (events (exec (create_summary_from_text article parser
                             (mkChatOpenAI 1 "gpt-4") splitter) world0))
    = ["開始生成文檔摘要..."; "處理時間: 2 秒";
       "文檔摘要生成完成！" +:+ nl +:+ "---"].
Proof.
  split; [reflexivity|].
  apply (summarizer_progress_lines article
           (mkDocument "Rocq" (doc_metadata article))
           [mkDocument " is a proof assistant." (doc_metadata article)]
           parser (mkChatOpenAI 1 "gpt-4") splitter world0).
  reflexivity.
Defined.

(** A batch of three documents, the second without chunks. *)
Lemma summary_orchestrator_order_witness :
  (∃ summaries,
     result (create_all_summaries 3 [article; blank; article] parser
               (mkChatOpenAI 1 "gpt-4") splitter world0)
     = Some (Returned summaries)
     ∧ Forall2 (λ d summary, metadata summary = Some (doc_metadata d))
         (with_chunks splitter [article; blank; article]) summaries
     ∧ summaries ≠ []).
Proof.
  eexists. split; [reflexivity|].
  apply (summary_orchestrator_order 3 [article; blank; article] parser
           (mkChatOpenAI 1 "gpt-4") splitter world0).
  reflexivity.
Defined.

(** A batch of two documents without chunks. *)
Lemma summary_orchestrator_nothing_to_do_witness :
  with_chunks splitter [blank; blank] = []
  ∧ create_all_summaries 0 [blank; blank] parser (mkChatOpenAI 1 "gpt-4")
      splitter world0
    = mkRun (Some (Raised NoSummariesCreatedError)) world0
        [EvPrint "開始並行處理 2 個文檔的摘要生成..."].
Proof.
  split; [reflexivity|].
  apply (summary_orchestrator_nothing_to_do 0 [blank; blank] parser
           (mkChatOpenAI 1 "gpt-4") splitter world0).
  reflexivity.
Defined.


(** A batch of three documents served without failure. *)
Lemma summary_orchestrator_succeeds_witness :
  (∀ llm prompt (w : World), ∃ reply w',
     respond (Invoke llm prompt) w = (inr reply, w'))
  ∧ (∀ reply, ∃ parsed, parse parser reply = inr parsed)
  ∧ (length [article; blank; article] ≤ 3)%nat
  ∧ with_chunks splitter [article; blank; article] = [article; article]
  ∧ ∃ summaries,
      result (create_all_summaries 3 [article; blank; article] parser
                (mkChatOpenAI 1 "gpt-4") splitter world0)
      = Some (Returned summaries)
      ∧ length summaries
        = length (with_chunks splitter [article; blank; article]).
Proof.
  assert (∀ llm prompt (w : World), ∃ reply w',
            respond (Invoke llm prompt) w = (inr reply, w')) as Hmodel
    by (intros llm prompt w; by eexists _, _).
  assert (∀ reply, ∃ parsed, parse parser reply = inr parsed) as Hparse
    by (intros reply; by eexists).
  split; [exact Hmodel|]. split; [exact Hparse|].
  split; [cbn; lia|]. split; [reflexivity|].
  apply (summary_orchestrator_succeeds 3 [article; blank; article] parser
           (mkChatOpenAI 1 "gpt-4") splitter world0 Hmodel Hparse).
  - cbn. lia.
  - discriminate.
Defined.
